(** * The bounded numeric field of [Parent] (react-hooks-forms)

    The only logic of the repository is the change handler of the number
    input, in the [Parent] component shown in README.md:

<<
    const [number, setNumber] = useState(0);
    const [isInvalidNumber, setIsInvalidNumber] = useState(null);

    function handleNumberChange(event) {
      const newNumber = parseInt(event.target.value);
      if (newNumber >= 0 && newNumber <= 5) {
        setNumber(newNumber);
        setIsInvalidNumber(null);
      } else {
        setIsInvalidNumber(`${newNumber} is not a valid number!`)
      }
    }
>>

    [NumberForm] (src/components/NumberForm.js) only passes [number] and
    [handleNumberChange] to the input element.

    The handler is three JavaScript primitives glued by one test:
    [parseInt], the relational operators on Numbers, and the conversion
    of a Number to a String done by the template literal.  They are
    embedded below following ECMA-262, on the values the handler can
    produce: strings are sequences of UTF-16 code units, Numbers are the
    integral doubles together with NaN, the infinities and -0.  The two
    setters are updates of the state the next render reads. *)

From Stdlib Require Import ZArith NArith List Bool Lia String Ascii.
From ExtLib Require Import Structures.Monad Structures.MonadState Structures.MonadTrans
  Structures.MonadExc Data.Monads.StateMonad Data.Monads.EitherMonad.
Import ListNotations.
Import MonadNotation.

Local Open Scope monad_scope.
Local Open Scope Z_scope.

(** ** Strings *)

Module Str.

(** A JavaScript string is a finite sequence of 16-bit code units. *)
Definition CodeUnit := N.
Definition JSString := list CodeUnit.

(** The code units of an ASCII literal. *)
Fixpoint js (s : string) : JSString :=
  match s with
  | EmptyString => []
  | String c rest => N_of_ascii c :: js rest
  end.

Fixpoint startsWith (s prefix : JSString) {struct prefix} : bool :=
  match prefix, s with
  | [], _ => true
  | p :: prefix', c :: s' => (N.eqb p c) && startsWith s' prefix'
  | _ :: _, [] => false
  end.

(** [String.prototype.includes]: [sub] occurs somewhere in [s]. *)
Fixpoint includes (s sub : JSString) : bool :=
  startsWith s sub ||
  match s with
  | [] => false
  | _ :: s' => includes s' sub
  end.

Fixpoint takeWhile {A} (p : A -> bool) (l : list A) : list A :=
  match l with
  | [] => []
  | x :: l' => if p x then x :: takeWhile p l' else []
  end.

Fixpoint dropWhile {A} (p : A -> bool) (l : list A) : list A :=
  match l with
  | [] => []
  | x :: l' => if p x then dropWhile p l' else l
  end.

(** WhiteSpace and LineTerminator code points (ECMA-262 12.2, 12.3):
    TAB, LF, VT, FF, CR, SP, NBSP, the other space separators (Zs),
    LS, PS and ZWNBSP. *)
Definition isWhiteSpace (c : CodeUnit) : bool :=
  existsb (N.eqb c)
    [9; 10; 11; 12; 13; 32; 160; 5760;
     8192; 8193; 8194; 8195; 8196; 8197; 8198; 8199; 8200; 8201; 8202;
     8232; 8233; 8239; 8287; 12288; 65279]%N.

(** [TrimString(s, start)]. *)
Definition trimStart (s : JSString) : JSString := dropWhile isWhiteSpace s.

(** The digit [0..9] as a code unit. *)
Definition digitChar (d : Z) : CodeUnit := Z.to_N (48 + d).

Fixpoint digitsFuel (fuel : nat) (n : Z) (acc : JSString) : JSString :=
  match fuel with
  | O => acc
  | S fuel' =>
      let acc' := digitChar (n mod 10) :: acc in
      if n <? 10 then acc' else digitsFuel fuel' (n / 10) acc'
  end.

(** The decimal digits of a non-negative integer, most significant
    first, without leading zeros ("0" for zero).  A number has no more
    decimal digits than binary ones, which bounds the recursion. *)
Definition digitsOf (n : Z) : JSString :=
  digitsFuel (S (Z.to_nat (Z.log2 n))) n [].

(** The decimal string of an integer: what the specification writes
    [str(n)]. *)
Definition decimal (n : Z) : JSString :=
  if n <? 0 then 45%N :: digitsOf (- n) else digitsOf n.

End Str.
Import Str.

(** ** Numbers *)

Module Num.

(** The Number values that occur: [parseInt] returns NaN, an infinity,
    -0 or an integral double, and the handler compares with the
    literals 0 and 5.  [Int 0] is +0. *)
Inductive Number : Type :=
| NaN
| PosInfinity
| NegInfinity
| NegZero
| Int (z : Z).

(** The mathematical value of a finite Number (0 for the others). *)
Definition R (x : Number) : Z :=
  match x with
  | Int z => z
  | _ => 0
  end.

Definition isFinite (x : Number) : bool :=
  match x with
  | Int _ | NegZero => true
  | _ => false
  end.

(** Rounding of a non-negative integer to the nearest double, ties to
    the even significand (53 bits); [None] when the result does not
    fit the exponent range, which is the overflow to infinity. *)
Definition roundMagnitude (m : Z) : option Z :=
  if m <? 2 ^ 53 then Some m
  else
    let e := Z.log2 m - 52 in
    let q := Z.shiftr m e in
    let r := m - Z.shiftl q e in
    let half := Z.shiftl 1 (e - 1) in
    let q' := if (half <? r) || ((r =? half) && Z.odd q) then q + 1 else q in
    let v := Z.shiftl q' e in
    if v <? 2 ^ 1024 then Some v else None.

(** The Number value of an integer (the specification's blackboard F). *)
Definition F (x : Z) : Number :=
  if 0 <=? x then
    match roundMagnitude x with
    | Some v => Int v
    | None => PosInfinity
    end
  else
    match roundMagnitude (- x) with
    | Some v => Int (- v)
    | None => NegInfinity
    end.

(** [Number::lessThan(x, y)]; [None] is the result undefined. *)
Definition lessThan (x y : Number) : option bool :=
  match x, y with
  | NaN, _ => None
  | _, NaN => None
  | PosInfinity, _ => Some false
  | _, PosInfinity => Some true
  | _, NegInfinity => Some false
  | NegInfinity, _ => Some true
  | _, _ => Some (R x <? R y)
  end.

(** [x >= y]: false when [x < y] is true or undefined. *)
Definition ge (x y : Number) : bool :=
  match lessThan x y with
  | Some false => true
  | _ => false
  end.

(** [x <= y]: false when [y < x] is true or undefined. *)
Definition le (x y : Number) : bool :=
  match lessThan y x with
  | Some false => true
  | _ => false
  end.

(** The shortest decimal significand of a positive double [z]: the
    pair [(s, e)] with the largest [e <= fuel] such that [s * 10^e]
    rounds to [z]; of the two neighbours of [z / 10^e] the closer one
    is taken, the even one on a tie. *)
Fixpoint shortest (fuel : nat) (z : Z) : Z * nat :=
  match fuel with
  | O => (z, O)
  | S fuel' =>
      let p := 10 ^ Z.of_nat fuel in
      let lo := z / p in
      let hi := lo + 1 in
      let okLo := (0 <? lo) &&
                  match roundMagnitude (lo * p) with
                  | Some v => v =? z
                  | None => false
                  end in
      let okHi := match roundMagnitude (hi * p) with
                  | Some v => v =? z
                  | None => false
                  end in
      let dLo := z - lo * p in
      let dHi := hi * p - z in
      if okLo && okHi then
        if dLo <? dHi then (lo, fuel)
        else if dHi <? dLo then (hi, fuel)
        else if Z.even lo then (lo, fuel) else (hi, fuel)
      else if okLo then (lo, fuel)
      else if okHi then (hi, fuel)
      else shortest fuel' z
  end.

(** [Number::toString(x, 10)] of a positive double. *)
Definition positiveToString (z : Z) : JSString :=
  let '(s, e) := shortest (List.length (digitsOf z)) z in
  let digits := digitsOf s in
  let k := List.length digits in
  let n := (k + e)%nat in
  if (n <=? 21)%nat then digits ++ repeat 48%N e
  else
    match digits with
    | [] => []
    | d :: [] => d :: js "e+" ++ digitsOf (Z.of_nat n - 1)
    | d :: more => d :: js "." ++ more ++ js "e+" ++ digitsOf (Z.of_nat n - 1)
    end.

(** [Number::toString(x, 10)]. *)
Definition toString (x : Number) : JSString :=
  match x with
  | NaN => js "NaN"
  | PosInfinity => js "Infinity"
  | NegInfinity => js "-Infinity"
  | NegZero => js "0"
  | Int z =>
      if z =? 0 then js "0"
      else if z <? 0 then 45%N :: positiveToString (- z)
      else positiveToString z
  end.

End Num.
Import Num.

(** ** Language values and abrupt completion *)

Module Lang.

(** The primitive language values.  Objects and BigInts do not occur in
    the handler. *)
Inductive Value : Type :=
| VUndefined
| VNull
| VBoolean (b : bool)
| VNumber (x : Number)
| VString (s : JSString)
| VSymbol (description : JSString).

Inductive JSError : Type :=
| TypeError.

(** A completion is normal ([inr]) or a throw ([inl]). *)
Definition Completion : Type -> Type := sum JSError.

(** The abstract operation [ToString]: it throws on a Symbol. *)
Definition ToString (v : Value) : Completion JSString :=
  match v with
  | VUndefined => ret (js "undefined")
  | VNull => ret (js "null")
  | VBoolean true => ret (js "true")
  | VBoolean false => ret (js "false")
  | VNumber x => ret (Num.toString x)
  | VString s => ret s
  | VSymbol _ => raise TypeError
  end.

End Lang.
Import Lang.

(** ** parseInt *)

Module ParseInt.

(** The value of a code unit as a digit: 0-9, then a-z or A-Z for
    10-35. *)
Definition digitValue (c : CodeUnit) : option Z :=
  if (48 <=? c)%N && (c <=? 57)%N then Some (Z.of_N c - 48)
  else if (97 <=? c)%N && (c <=? 122)%N then Some (Z.of_N c - 87)
  else if (65 <=? c)%N && (c <=? 90)%N then Some (Z.of_N c - 55)
  else None.

Definition isRadixDigit (radix : Z) (c : CodeUnit) : bool :=
  match digitValue c with
  | Some d => d <? radix
  | None => false
  end.

(** The integer written by a sequence of radix digits. *)
Definition mathematicalInteger (radix : Z) (digits : JSString) : Z :=
  fold_left
    (fun acc c => match digitValue c with
                  | Some d => acc * radix + d
                  | None => acc
                  end)
    digits 0.

(** [parseInt(string)] once its argument is a String, the radix being
    undefined (ECMA-262 19.2.5, steps 2 to 16): white space is trimmed,
    a sign is read, a [0x] or [0X] prefix selects radix 16, and the
    longest run of digits of the radix is the integer; no digit gives
    NaN.  The integer is taken exactly before it is rounded to a Number
    (the standard lets an implementation zero decimal digits after the
    twentieth). *)
Definition parseIntString (inputString : JSString) : Number :=
  let trimmed := trimStart inputString in
  let sign := match trimmed with
              | c :: _ => if (c =? 45)%N then -1 else 1
              | [] => 1
              end in
  let unsigned := match trimmed with
                  | c :: rest =>
                      if (c =? 43)%N || (c =? 45)%N then rest else trimmed
                  | [] => trimmed
                  end in
  let stripPrefix := startsWith unsigned (js "0x") ||
                     startsWith unsigned (js "0X") in
  let radix := if stripPrefix then 16 else 10 in
  let body := if stripPrefix then skipn 2 unsigned else unsigned in
  let digits := takeWhile (isRadixDigit radix) body in
  match digits with
  | [] => NaN
  | _ :: _ =>
      let mathInt := mathematicalInteger radix digits in
      if mathInt =? 0 then
        if sign =? -1 then NegZero else Int 0
      else F (sign * mathInt)
  end.

(** [parseInt(string)]: step 1 converts the argument to a String. *)
Definition parseInt (string : Value) : Completion Number :=
  inputString <- ToString string ;;
  ret (parseIntString inputString).

End ParseInt.
Import ParseInt.

(** ** The component *)

Module Parent.

(** The two state cells of the number field:
    [useState(0)] and [useState(null)]. *)
Record State : Type := mkState {
  number : Number;
  isInvalidNumber : option JSString
}.

Definition initialState : State :=
  {| number := Int 0; isInvalidNumber := None |}.

(** The change event of the input element; its [value] is a DOM
    string. *)
Record Target : Type := mkTarget { value : JSString }.
Record Event : Type := mkEvent { target : Target }.

(** Handlers run over the state of the component and may throw. *)
Definition M : Type -> Type := stateT State Completion.

#[local] Existing Instance Monad_stateT.

Definition setNumber (n : Number) : M unit :=
  modify (fun st => {| number := n; isInvalidNumber := isInvalidNumber st |}) ;;
  ret tt.

Definition setIsInvalidNumber (m : option JSString) : M unit :=
  modify (fun st => {| number := number st; isInvalidNumber := m |}) ;;
  ret tt.

(** The test of the handler: [newNumber >= 0 && newNumber <= 5]. *)
Definition inRange (newNumber : Number) : bool :=
  Num.ge newNumber (Int 0) && Num.le newNumber (Int 5).

Definition handleNumberChange (event : Event) : M unit :=
  newNumber <- lift (parseInt (VString (value (target event)))) ;;
  if inRange newNumber then
    setNumber newNumber ;;
    setIsInvalidNumber None
  else
    text <- lift (ToString (VNumber newNumber)) ;;
    setIsInvalidNumber (Some (text ++ js " is not a valid number!")).

(** The specification names the handler [attemptUpdate] and gives it an
    outcome, which is read from the message cell it leaves. *)
Inductive Outcome : Type :=
| Accepted (n : Number)
| Rejected (message : JSString).

Definition changeEvent (rawText : JSString) : Event :=
  {| target := {| value := rawText |} |}.

Definition attemptUpdate (rawText : JSString) : M Outcome :=
  handleNumberChange (changeEvent rawText) ;;
  st <- get ;;
  ret (match isInvalidNumber st with
       | None => Accepted (number st)
       | Some message => Rejected message
       end).

(** One call from a state: the outcome and the next state, or a
    throw. *)
Definition run (rawText : JSString) (st : State) : Completion (Outcome * State) :=
  runStateT (attemptUpdate rawText) st.

(** The change events of a session, handled one after the other. *)
Fixpoint runAll (inputs : list JSString) (st : State) : Completion State :=
  match inputs with
  | [] => ret st
  | rawText :: rest =>
      r <- run rawText st ;;
      runAll rest (snd r)
  end.

End Parent.
Import Parent.

(** ** The specification's reading of the parsing step *)

Module Spec.

Definition isDecimalDigit (c : CodeUnit) : bool :=
  (48 <=? c)%N && (c <=? 57)%N.

Definition decimalValue (digits : JSString) : Z :=
  fold_left (fun acc c => 10 * acc + (Z.of_N c - 48)) digits 0.

Definition isNegative (rawText : JSString) : bool :=
  startsWith (trimStart rawText) (js "-").

Definition unsignedPart (rawText : JSString) : JSString :=
  let s := trimStart rawText in
  if startsWith s (js "+") || startsWith s (js "-") then skipn 1 s else s.

(** "Parse leading integer, ignore trailing garbage": after leading
    white space and an optional sign, the longest run of decimal
    digits, read in base ten; nothing when the run is empty. *)
Definition leadingInteger (rawText : JSString) : option Z :=
  match takeWhile isDecimalDigit (unsignedPart rawText) with
  | [] => None
  | digits =>
      Some (if isNegative rawText then - decimalValue digits
            else decimalValue digits)
  end.

(** The text, after white space and sign, starts with [0x] or [0X]. *)
Definition hasHexPrefix (rawText : JSString) : bool :=
  startsWith (unsignedPart rawText) (js "0x") ||
  startsWith (unsignedPart rawText) (js "0X").

(** A Number is an integer of the closed range 0..5. *)
Definition inBounds (x : Number) : Prop :=
  Num.isFinite x = true /\ 0 <= Num.R x <= 5.

End Spec.
Import Spec.

(** The text of the template literal of the rejecting branch. *)
Definition rejection (newNumber : Number) : JSString :=
  Num.toString newNumber ++ js " is not a valid number!".

(** ** The form that only blocks (README.md, lines 236-249)

<<
    const [number, setNumber] = useState(0);
    function handleNumberChange(event) {
      const newNumber = parseInt(event.target.value);
      if (newNumber >= 0 && newNumber <= 5) {
        setNumber(newNumber);
      }
    }
>> *)

Module NumberOnlyForm.

(** The single state cell, [useState(0)]. *)
Definition initialNumber : Number := Int 0.

Definition M : Type -> Type := stateT Number Completion.

#[local] Existing Instance Monad_stateT.

Definition setNumber (n : Number) : M unit := put n.

Definition handleNumberChange (event : Event) : M unit :=
  newNumber <- lift (parseInt (VString (value (target event)))) ;;
  if inRange newNumber then
    setNumber newNumber
  else
    ret tt.

(** The change events of a session, handled one after the other. *)
Fixpoint session (inputs : list JSString) (n : Number) : Completion Number :=
  match inputs with
  | [] => ret n
  | rawText :: rest =>
      r <- runStateT (handleNumberChange (changeEvent rawText)) n ;;
      session rest (snd r)
  end.

End NumberOnlyForm.

(** ** The whole [Parent] component (README.md, lines 283-327) with its
    children [Form] (lines 166-179), [DisplayData] (lines 192-199) and
    [NumberForm] (src/components/NumberForm.js) *)

Module App.

(** The four state cells: [useState("Andy")], [useState("Dandy")],
    [useState(0)] and [useState(null)]. *)
Record ParentState : Type := mkParentState {
  firstName : JSString;
  lastName : JSString;
  number : Number;
  isInvalidNumber : option JSString
}.

Definition initialState : ParentState :=
  {| firstName := js "Andy"; lastName := js "Dandy";
     number := Int 0; isInvalidNumber := None |}.

Definition M : Type -> Type := stateT ParentState Completion.

#[local] Existing Instance Monad_stateT.

Definition setFirstName (s : JSString) : M unit :=
  modify (fun st => {| firstName := s; lastName := lastName st;
                       number := number st;
                       isInvalidNumber := isInvalidNumber st |}) ;;
  ret tt.

Definition setLastName (s : JSString) : M unit :=
  modify (fun st => {| firstName := firstName st; lastName := s;
                       number := number st;
                       isInvalidNumber := isInvalidNumber st |}) ;;
  ret tt.

Definition setNumber (n : Number) : M unit :=
  modify (fun st => {| firstName := firstName st; lastName := lastName st;
                       number := n;
                       isInvalidNumber := isInvalidNumber st |}) ;;
  ret tt.

Definition setIsInvalidNumber (m : option JSString) : M unit :=
  modify (fun st => {| firstName := firstName st; lastName := lastName st;
                       number := number st;
                       isInvalidNumber := m |}) ;;
  ret tt.

Definition handleFirstNameChange (event : Event) : M unit :=
  setFirstName (value (target event)).

Definition handleLastNameChange (event : Event) : M unit :=
  setLastName (value (target event)).

Definition handleNumberChange (event : Event) : M unit :=
  newNumber <- lift (parseInt (VString (value (target event)))) ;;
  if inRange newNumber then
    setNumber newNumber ;;
    setIsInvalidNumber None
  else
    text <- lift (ToString (VNumber newNumber)) ;;
    setIsInvalidNumber (Some (text ++ js " is not a valid number!")).

(** The three closures of [Parent] that are passed down as props, by
    name. *)
Inductive Handler : Type :=
| HandleFirstNameChange
| HandleLastNameChange
| HandleNumberChange.

Definition invoke (h : Handler) (event : Event) : M unit :=
  match h with
  | HandleFirstNameChange => handleFirstNameChange event
  | HandleLastNameChange => handleLastNameChange event
  | HandleNumberChange => handleNumberChange event
  end.

(** What the components return: host elements with their props and
    children, string children, and [null]. *)
Inductive PropValue : Type :=
| PString (s : JSString)
| PNumber (x : Number)
| PHandler (h : Handler)
| PStyle (declarations : list (string * JSString)).

#[warnings="-register-all"]
Inductive Node : Type :=
| Element (type : string) (props : list (string * PropValue))
          (children : list Node)
| Text (s : JSString)
| Null.

Local Open Scope string_scope.

(** [Form({firstName, lastName, handleFirstNameChange,
    handleLastNameChange})]. *)
Definition Form (firstName lastName : JSString)
    (handleFirstNameChange handleLastNameChange : Handler) : Node :=
  Element "form" []
    [ Element "input"
        [("type", PString (js "text"));
         ("onChange", PHandler handleFirstNameChange);
         ("value", PString firstName)] [];
      Element "input"
        [("type", PString (js "text"));
         ("onChange", PHandler handleLastNameChange);
         ("value", PString lastName)] [];
      Element "button" [("type", PString (js "submit"))] [Text (js "Submit")] ].

(** [DisplayData({firstName, lastName})]. *)
Definition DisplayData (firstName lastName : JSString) : Node :=
  Element "div" []
    [ Element "h1" [] [Text firstName];
      Element "h1" [] [Text lastName] ].

(** [NumberForm({number, handleNumberChange})]. *)
Definition NumberForm (number : Number) (handleNumberChange : Handler) : Node :=
  Element "form" []
    [ Element "label" [("htmlFor", PString (js "number"))]
        [Text (js "Number Form")];
      Element "input"
        [("id", PString (js "number"));
         ("type", PString (js "number"));
         ("value", PNumber number);
         ("onChange", PHandler handleNumberChange)] [] ].

(** [ToBoolean] of the message cell, [null] or a String: the condition
    of [isInvalidNumber ? ... : null]. *)
Definition ToBoolean (m : option JSString) : bool :=
  match m with
  | None => false
  | Some [] => false
  | Some (_ :: _) => true
  end.

(** What [Parent] returns in a state, the children components
    rendered. *)
Definition Parent (st : ParentState) : Node :=
  Element "div" []
    [ Form (firstName st) (lastName st)
        HandleFirstNameChange HandleLastNameChange;
      DisplayData (firstName st) (lastName st);
      NumberForm (number st) HandleNumberChange;
      if ToBoolean (isInvalidNumber st) then
        match isInvalidNumber st with
        | Some message =>
            Element "span" [("style", PStyle [("color", js "red")])]
              [Text message]
        | None => Null
        end
      else Null ].

(** The elements of a type in a tree, in document order, each with its
    props and children. *)
Fixpoint elementsOf (type : string) (n : Node)
  : list (list (string * PropValue) * list Node) :=
  match n with
  | Element t props children =>
      ((if String.eqb t type then [(props, children)] else []) ++
       flat_map (elementsOf type) children)%list
  | Text _ => []
  | Null => []
  end.

Fixpoint getProp (name : string) (props : list (string * PropValue))
  : option PropValue :=
  match props with
  | [] => None
  | (k, v) :: rest => if String.eqb k name then Some v else getProp name rest
  end.

(** What the inputs display, in document order. *)
Definition shownValues (n : Node) : list (option PropValue) :=
  map (fun e => getProp "value" (fst e)) (elementsOf "input" n).

(** The children of the headings, and of the error region. *)
Definition headings (n : Node) : list (list Node) :=
  map snd (elementsOf "h1" n).

Definition errorRegion (n : Node) : list (list Node) :=
  map snd (elementsOf "span" n).

(** A change event on the [i]-th input of the page: the [onChange]
    prop of that element is called with the text of the input. *)
Definition fire (i : nat) (rawText : JSString) : M unit :=
  st <- get ;;
  match nth_error (elementsOf "input" (Parent st)) i with
  | Some (props, _) =>
      match getProp "onChange" props with
      | Some (PHandler h) => invoke h (changeEvent rawText)
      | _ => ret tt
      end
  | None => ret tt
  end.

Definition step (i : nat) (rawText : JSString) (st : ParentState)
  : Completion ParentState :=
  r <- runStateT (fire i rawText) st ;;
  ret (snd r).

(** A session: change events on the inputs, one after the other. *)
Fixpoint session (events : list (nat * JSString)) (st : ParentState)
  : Completion ParentState :=
  match events with
  | [] => ret st
  | (i, rawText) :: rest =>
      st' <- step i rawText st ;;
      session rest st'
  end.

End App.

(** The number cells of the page, as the state of the number field. *)
Definition numberField (st : App.ParentState) : State :=
  {| number := App.number st; isInvalidNumber := App.isInvalidNumber st |}.

(** * Properties *)

(** ** The handler, unfolded *)

Lemma run_unfold (rawText : JSString) (st : State) :
  run rawText st =
  inr (let newNumber := parseIntString rawText in
       if inRange newNumber
       then (Accepted newNumber,
             {| number := newNumber; isInvalidNumber := None |})
       else (Rejected (rejection newNumber),
             {| number := number st;
                isInvalidNumber := Some (rejection newNumber) |})).
Proof.
  unfold run, attemptUpdate, handleNumberChange, rejection; simpl.
  destruct (inRange (parseIntString rawText)); reflexivity.
Qed.

Lemma run_accept rawText st :
  inRange (parseIntString rawText) = true ->
  run rawText st =
  inr (Accepted (parseIntString rawText),
       {| number := parseIntString rawText; isInvalidNumber := None |}).
Proof. intros H. rewrite run_unfold. cbv zeta. now rewrite H. Qed.

Lemma run_reject rawText st :
  inRange (parseIntString rawText) = false ->
  run rawText st =
  inr (Rejected (rejection (parseIntString rawText)),
       {| number := number st;
          isInvalidNumber := Some (rejection (parseIntString rawText)) |}).
Proof. intros H. rewrite run_unfold. cbv zeta. now rewrite H. Qed.

(** Case analysis on the branch a call takes. *)
Ltac run_cases rawText :=
  rewrite run_unfold; cbv zeta;
  destruct (inRange (parseIntString rawText)) eqn:?.

(** The embedding on a few inputs: white space, sign, trailing text, a
    hexadecimal prefix, text without digits; rounding to a double and
    the text of a Number; a throw. *)
Example parseInt_examples :
  parseIntString (js "  42px") = Int 42 /\
  parseIntString (js "-17.5") = Int (-17) /\
  parseIntString (js "-0") = NegZero /\
  parseIntString (js "0x1f") = Int 31 /\
  parseIntString (js "1e3") = Int 1 /\
  parseIntString (js "") = NaN /\
  parseIntString (js ".5") = NaN /\
  parseIntString (js "Infinity") = NaN.
Proof. repeat split. Qed.

Example toString_examples :
  Num.toString (F 1000) = js "1000" /\
  Num.toString (F (2 ^ 53 + 1)) = js "9007199254740992" /\
  Num.toString (F (2 ^ 60)) = js "1152921504606847000" /\
  Num.toString (F (10 ^ 21)) = js "1e+21" /\
  Num.toString (F (- 2 ^ 70)) = js "-1.1805916207174113e+21" /\
  Num.toString (F (2 ^ 1024 - 2 ^ 970 - 1)) = js "1.7976931348623157e+308" /\
  Num.toString (F (2 ^ 1024)) = js "Infinity".
Proof. repeat split; vm_compute; reflexivity. Qed.

Example parseInt_throws :
  parseInt (VSymbol (js "id")) = inl TypeError /\
  parseInt (VString (js "7")) = inr (Int 7) /\
  parseInt VNull = inr NaN.
Proof. repeat split. Qed.

(** ** Decimal digits *)

Section Digits.

Lemma digit_cases d : 0 <= d < 10 ->
  d = 0 \/ d = 1 \/ d = 2 \/ d = 3 \/ d = 4 \/
  d = 5 \/ d = 6 \/ d = 7 \/ d = 8 \/ d = 9.
Proof. lia. Qed.

Lemma digitValue_digitChar d :
  0 <= d < 10 -> digitValue (digitChar d) = Some d.
Proof.
  intros H. destruct (digit_cases d H) as [E|[E|[E|[E|[E|[E|[E|[E|[E|E]]]]]]]]];
    subst d; reflexivity.
Qed.

Lemma isDecimalDigit_digitChar d :
  0 <= d < 10 -> isDecimalDigit (digitChar d) = true.
Proof.
  intros H. destruct (digit_cases d H) as [E|[E|[E|[E|[E|[E|[E|[E|[E|E]]]]]]]]];
    subst d; reflexivity.
Qed.

Lemma digitsFuel_app fuel : forall n acc,
  digitsFuel fuel n acc = digitsFuel fuel n [] ++ acc.
Proof.
  induction fuel as [|fuel IH]; intros n acc; simpl; [reflexivity|].
  destruct (n <? 10); [reflexivity|].
  rewrite IH, (IH _ [_]), <- app_assoc. reflexivity.
Qed.

(** Enough fuel is as good as more. *)
Lemma digitsFuel_enough f1 : forall f2 n acc,
  0 <= n < 2 ^ Z.of_nat (S f1) -> n < 2 ^ Z.of_nat (S f2) ->
  digitsFuel (S f1) n acc = digitsFuel (S f2) n acc.
Proof.
  induction f1 as [|f1 IH]; intros f2 n acc H1 H2.
  - change (2 ^ Z.of_nat 1) with 2 in H1.
    cbn [digitsFuel]. destruct (Z.ltb_spec n 10); [reflexivity | lia].
  - cbn [digitsFuel]. destruct (Z.ltb_spec n 10) as [Hn|Hn]; [reflexivity|].
    rewrite Nat2Z.inj_succ, Z.pow_succ_r in H1, H2 by lia.
    destruct f2 as [|f2].
    + change (2 ^ Z.of_nat 0) with 1 in H2. lia.
    + apply IH.
      * split; [apply Z.div_pos; lia|].
        apply Z.div_lt_upper_bound; lia.
      * apply Z.div_lt_upper_bound; lia.
Qed.

Lemma log2_fuel n : 0 <= n -> n < 2 ^ Z.of_nat (S (Z.to_nat (Z.log2 n))).
Proof.
  intros Hn. rewrite Nat2Z.inj_succ, Z2Nat.id by apply Z.log2_nonneg.
  destruct (Z.eq_dec n 0) as [->|Hz]; [reflexivity|].
  apply Z.log2_spec. lia.
Qed.

(** The recursion equation of [digitsOf]. *)
Lemma digitsOf_unfold n : 0 <= n ->
  digitsOf n =
  (if n <? 10 then [] else digitsOf (n / 10)) ++ [digitChar (n mod 10)].
Proof.
  intros Hn. unfold digitsOf at 1. cbn [digitsFuel].
  destruct (Z.ltb_spec n 10) as [Hlt|Hge]; [reflexivity|].
  rewrite digitsFuel_app. f_equal.
  assert (Hq : 0 <= n / 10) by (apply Z.div_pos; lia).
  assert (Hl : 3 <= Z.log2 n) by (apply (Z.log2_le_mono 8 n); lia).
  unfold digitsOf.
  destruct (Z.to_nat (Z.log2 n)) as [|f] eqn:Ef; [lia|].
  apply digitsFuel_enough.
  - split; [exact Hq|].
    apply Z.div_lt_upper_bound; [lia|].
    pose proof (log2_fuel n Hn) as Hf. rewrite Ef in Hf.
    rewrite Nat2Z.inj_succ, Z.pow_succ_r in Hf by lia. lia.
  - apply log2_fuel, Hq.
Qed.

Lemma digitsOf_small n : 0 <= n < 10 -> digitsOf n = [digitChar n].
Proof.
  intros H. rewrite digitsOf_unfold by lia.
  destruct (Z.ltb_spec n 10); [|lia].
  rewrite Z.mod_small by lia. reflexivity.
Qed.

Lemma digitsOf_step n : 10 <= n ->
  digitsOf n = digitsOf (n / 10) ++ [digitChar (n mod 10)].
Proof.
  intros H. rewrite digitsOf_unfold by lia.
  destruct (Z.ltb_spec n 10); [lia|reflexivity].
Qed.

(** Induction on the number of decimal digits. *)
Lemma digits_ind (P : Z -> Prop) :
  (forall n, 0 <= n < 10 -> P n) ->
  (forall n, 10 <= n -> P (n / 10) -> P n) ->
  forall n, 0 <= n -> P n.
Proof.
  intros Hsmall Hstep.
  assert (H : forall k n, 0 <= n < 10 ^ Z.of_nat (S k) -> P n).
  { induction k as [|k IH]; intros n Hn.
    - apply Hsmall. change (10 ^ Z.of_nat 1) with 10 in Hn. exact Hn.
    - destruct (Z_lt_ge_dec n 10) as [Hlt|Hge]; [apply Hsmall; lia|].
      apply Hstep; [lia|]. apply IH.
      rewrite Nat2Z.inj_succ, Z.pow_succ_r in Hn by lia.
      split; [apply Z.div_pos; lia|].
      apply Z.div_lt_upper_bound; lia. }
  intros n Hn. apply (H (Z.to_nat n)).
  split; [exact Hn|].
  rewrite Nat2Z.inj_succ, Z2Nat.id, Z.pow_succ_r by lia.
  pose proof (Z.pow_gt_lin_r 10 n). lia.
Qed.

Lemma digitsOf_nonempty n : 0 <= n -> digitsOf n <> [].
Proof.
  intros Hn. rewrite digitsOf_unfold by exact Hn.
  destruct (if n <? 10 then [] else digitsOf (n / 10)); discriminate.
Qed.

Lemma digitsOf_decimal n : 0 <= n ->
  Forall (fun c => isDecimalDigit c = true) (digitsOf n).
Proof.
  revert n. apply digits_ind; intros n Hn.
  - rewrite digitsOf_small by exact Hn.
    constructor; [apply isDecimalDigit_digitChar; exact Hn | constructor].
  - intros IH. rewrite digitsOf_step by exact Hn.
    apply Forall_app. split; [exact IH|].
    constructor; [|constructor].
    apply isDecimalDigit_digitChar, Z.mod_pos_bound. lia.
Qed.

Lemma mathematicalInteger_snoc radix digits c d :
  digitValue c = Some d ->
  mathematicalInteger radix (digits ++ [c]) =
  mathematicalInteger radix digits * radix + d.
Proof.
  intros Hc. unfold mathematicalInteger.
  rewrite fold_left_app. cbn [fold_left]. now rewrite Hc.
Qed.

(** Reading the digits of [n] gives [n] back. *)
Lemma mathematicalInteger_digitsOf n : 0 <= n ->
  mathematicalInteger 10 (digitsOf n) = n.
Proof.
  revert n. apply digits_ind; intros n Hn.
  - rewrite digitsOf_small by exact Hn.
    unfold mathematicalInteger. cbn [fold_left].
    rewrite digitValue_digitChar by exact Hn. lia.
  - intros IH. rewrite digitsOf_step by exact Hn.
    rewrite (mathematicalInteger_snoc _ _ _ (n mod 10)).
    + rewrite IH. pose proof (Z.div_mod n 10). lia.
    + apply digitValue_digitChar, Z.mod_pos_bound. lia.
Qed.

Lemma digitsOf_times10 m : 0 < m -> digitsOf (m * 10) = digitsOf m ++ [48%N].
Proof.
  intros Hm. rewrite digitsOf_step by lia.
  rewrite Z.div_mul, Z.mod_mul by lia. reflexivity.
Qed.

Lemma digitsOf_shift e : forall s, 0 < s ->
  digitsOf (s * 10 ^ Z.of_nat e) = digitsOf s ++ repeat 48%N e.
Proof.
  induction e as [|e IH]; intros s Hs.
  - cbn [repeat]. rewrite app_nil_r. f_equal. change (10 ^ Z.of_nat 0) with 1. lia.
  - rewrite Nat2Z.inj_succ, Z.pow_succ_r by lia.
    replace (s * (10 * 10 ^ Z.of_nat e)) with (s * 10 * 10 ^ Z.of_nat e) by lia.
    rewrite IH by lia. rewrite digitsOf_times10 by exact Hs.
    rewrite <- app_assoc. reflexivity.
Qed.

Lemma digitsOf_length k : forall n,
  0 <= n < 10 ^ Z.of_nat (S k) -> (List.length (digitsOf n) <= S k)%nat.
Proof.
  induction k as [|k IH]; intros n Hn.
  - change (10 ^ Z.of_nat 1) with 10 in Hn.
    rewrite digitsOf_small by exact Hn. cbn. lia.
  - destruct (Z_lt_ge_dec n 10) as [Hlt|Hge].
    + rewrite digitsOf_small by lia. cbn. lia.
    + rewrite digitsOf_step by lia. rewrite length_app. cbn [List.length].
      rewrite Nat2Z.inj_succ, Z.pow_succ_r in Hn by lia.
      assert (List.length (digitsOf (n / 10)) <= S k)%nat; [|lia].
      apply IH. split; [apply Z.div_pos; lia|].
      apply Z.div_lt_upper_bound; lia.
Qed.

End Digits.

(** ** Rounding to a double *)

Section Rounding.

Lemma roundMagnitude_small m : m < 2 ^ 53 -> roundMagnitude m = Some m.
Proof.
  intros H. unfold roundMagnitude.
  destruct (Z.ltb_spec m (2 ^ 53)); [reflexivity | lia].
Qed.

(** Rounding never takes a large integer below [2^53]. *)
Lemma roundMagnitude_large m v :
  2 ^ 53 <= m -> roundMagnitude m = Some v -> 2 ^ 53 <= v.
Proof.
  intros Hm. unfold roundMagnitude.
  destruct (Z.ltb_spec m (2 ^ 53)) as [Hlt|_]; [lia|].
  set (e := Z.log2 m - 52).
  set (q := Z.shiftr m e).
  match goal with |- context [Z.shiftl ?x e] => set (q' := x) end.
  destruct (Z.shiftl q' e <? 2 ^ 1024); [|discriminate].
  intros [= <-].
  assert (Hlog : 53 <= Z.log2 m).
  { change 53 with (Z.log2 (2 ^ 53)). apply Z.log2_le_mono. exact Hm. }
  assert (He : 1 <= e) by (unfold e; lia).
  assert (Hpe : 2 <= 2 ^ e).
  { change 2 with (2 ^ 1) at 1. apply Z.pow_le_mono_r; lia. }
  assert (Hq : 2 ^ 52 <= q).
  { unfold q. rewrite Z.shiftr_div_pow2 by lia.
    apply Z.div_le_lower_bound; [lia|].
    assert (Hs : 2 ^ Z.log2 m <= m) by (apply Z.log2_spec; lia).
    replace (Z.log2 m) with (e + 52) in Hs by (unfold e; lia).
    rewrite Z.pow_add_r in Hs by lia. lia. }
  assert (Hq' : q <= q') by (unfold q'; destruct (_ || _); lia).
  rewrite Z.shiftl_mul_pow2 by lia. nia.
Qed.

Lemma roundMagnitude_exact m z :
  roundMagnitude m = Some z -> z < 2 ^ 53 -> m = z.
Proof.
  intros Hr Hz. destruct (Z_lt_ge_dec m (2 ^ 53)) as [Hlt|Hge].
  - rewrite roundMagnitude_small in Hr by exact Hlt. congruence.
  - pose proof (roundMagnitude_large m z ltac:(lia) Hr). lia.
Qed.

Lemma F_safe n : - 2 ^ 53 < n < 2 ^ 53 -> F n = Int n.
Proof.
  intros H. unfold F. destruct (Z.leb_spec 0 n).
  - rewrite roundMagnitude_small by lia. reflexivity.
  - rewrite roundMagnitude_small by lia. f_equal. lia.
Qed.

Lemma F_above n : 5 < n -> inRange (F n) = false.
Proof.
  intros H. unfold F. destruct (Z.leb_spec 0 n); [|lia].
  destruct (roundMagnitude n) as [v|] eqn:Hr; [|reflexivity].
  assert (Hv : 5 < v).
  { destruct (Z_lt_ge_dec n (2 ^ 53)) as [Hlt|Hge].
    - rewrite roundMagnitude_small in Hr by exact Hlt.
      injection Hr as <-. exact H.
    - pose proof (roundMagnitude_large n v ltac:(lia) Hr). lia. }
  unfold inRange, Num.ge, Num.le, lessThan; cbn [R].
  destruct (Z.ltb_spec 5 v); [|lia].
  destruct (v <? 0); reflexivity.
Qed.

Lemma F_below n : n < 0 -> inRange (F n) = false.
Proof.
  intros H. unfold F. destruct (Z.leb_spec 0 n); [lia|].
  destruct (roundMagnitude (- n)) as [v|] eqn:Hr; [|reflexivity].
  assert (Hv : 0 < v).
  { destruct (Z_lt_ge_dec (- n) (2 ^ 53)) as [Hlt|Hge].
    - rewrite roundMagnitude_small in Hr by exact Hlt.
      injection Hr as <-. lia.
    - pose proof (roundMagnitude_large (- n) v ltac:(lia) Hr). lia. }
  unfold inRange, Num.ge, lessThan; cbn [R].
  destruct (Z.ltb_spec (- v) 0); [reflexivity | lia].
Qed.

End Rounding.

(** ** Number to String on the safe integers *)

Section ToString.

(** Below [2^53] the shortest significand is exact. *)
Lemma shortest_exact fuel : forall z, 0 < z < 2 ^ 53 ->
  0 < fst (shortest fuel z) /\
  fst (shortest fuel z) * 10 ^ Z.of_nat (snd (shortest fuel z)) = z.
Proof.
  induction fuel as [|fuel IH]; intros z Hz.
  - cbn. lia.
  - cbn [shortest].
    set (p := 10 ^ Z.of_nat (S fuel)).
    set (lo := z / p).
    assert (Hp : 0 < p) by (apply Z.pow_pos_nonneg; lia).
    assert (Hlo : 0 <= lo) by (apply Z.div_pos; lia).
    assert (HLo : ((0 <? lo) &&
                   match roundMagnitude (lo * p) with
                   | Some v => v =? z
                   | None => false
                   end) = true -> 0 < lo /\ lo * p = z).
    { intros H. apply andb_true_iff in H as [H1 H2].
      apply Z.ltb_lt in H1. split; [exact H1|].
      destruct (roundMagnitude (lo * p)) as [v|] eqn:Hr; [|discriminate].
      apply Z.eqb_eq in H2. subst v.
      apply (roundMagnitude_exact _ _ Hr). lia. }
    assert (HHi : match roundMagnitude ((lo + 1) * p) with
                  | Some v => v =? z
                  | None => false
                  end = true -> 0 < lo + 1 /\ (lo + 1) * p = z).
    { intros H. split; [lia|].
      destruct (roundMagnitude ((lo + 1) * p)) as [v|] eqn:Hr; [|discriminate].
      apply Z.eqb_eq in H. subst v.
      apply (roundMagnitude_exact _ _ Hr). lia. }
    destruct ((0 <? lo) && _) eqn:ELo;
      destruct (match roundMagnitude ((lo + 1) * p) with
                | Some v => v =? z
                | None => false
                end) eqn:EHi; cbn [andb].
    + repeat match goal with |- context [if ?b then _ else _] => destruct b end;
        cbn [fst snd]; auto.
    + cbn [fst snd]; auto.
    + cbn [fst snd]; auto.
    + apply IH, Hz.
Qed.

Lemma digitsOf_length_safe z :
  0 <= z < 2 ^ 53 -> (List.length (digitsOf z) <= 16)%nat.
Proof.
  intros H. apply (digitsOf_length 15).
  change (10 ^ Z.of_nat 16) with 10000000000000000.
  change (2 ^ 53) with 9007199254740992 in H. lia.
Qed.

Lemma positiveToString_safe z :
  0 < z < 2 ^ 53 -> positiveToString z = digitsOf z.
Proof.
  intros Hz. unfold positiveToString.
  pose proof (shortest_exact (List.length (digitsOf z)) z Hz) as [Hs He].
  destruct (shortest (List.length (digitsOf z)) z) as [s e].
  cbn [fst snd] in Hs, He.
  pose proof (digitsOf_shift e s Hs) as Hd. rewrite He in Hd.
  pose proof (digitsOf_length_safe z ltac:(lia)) as Hl.
  rewrite Hd, length_app, repeat_length in Hl.
  destruct (Nat.leb_spec (List.length (digitsOf s) + e) 21); [|lia].
  symmetry. exact Hd.
Qed.

Lemma toString_safe n :
  - 2 ^ 53 < n < 2 ^ 53 -> Num.toString (Int n) = decimal n.
Proof.
  intros H. unfold Num.toString, decimal.
  destruct (Z.eqb_spec n 0) as [->|Hz]; [reflexivity|].
  destruct (Z.ltb_spec n 0).
  - rewrite positiveToString_safe by lia. reflexivity.
  - apply positiveToString_safe. lia.
Qed.

End ToString.

(** ** parseInt on decimal text *)

Section ParseDecimal.

Lemma isRadixDigit_10 c : isRadixDigit 10 c = isDecimalDigit c.
Proof.
  unfold isRadixDigit, digitValue, isDecimalDigit.
  destruct (N.leb_spec 48 c), (N.leb_spec c 57); cbn [andb];
    try (destruct (Z.ltb_spec (Z.of_N c - 48) 10); [reflexivity | lia]);
    destruct (N.leb_spec 97 c), (N.leb_spec c 122); cbn [andb];
    try (destruct (Z.ltb_spec (Z.of_N c - 87) 10); [lia | reflexivity]);
    destruct (N.leb_spec 65 c), (N.leb_spec c 90); cbn [andb];
    try (destruct (Z.ltb_spec (Z.of_N c - 55) 10); [lia | reflexivity]);
    reflexivity.
Qed.

Lemma takeWhile_ext {A} (p q : A -> bool) l :
  (forall x, p x = q x) -> takeWhile p l = takeWhile q l.
Proof.
  intros H. induction l as [|x l IH]; cbn; [reflexivity|].
  rewrite H, IH. reflexivity.
Qed.

Lemma takeWhile_Forall {A} (p : A -> bool) l :
  Forall (fun x => p x = true) (takeWhile p l).
Proof.
  induction l as [|x l IH]; cbn; [constructor|].
  destruct (p x) eqn:E; constructor; assumption.
Qed.

Lemma takeWhile_all {A} (p : A -> bool) l :
  Forall (fun x => p x = true) l -> takeWhile p l = l.
Proof.
  induction 1 as [|x l Hx _ IH]; cbn; [reflexivity|].
  rewrite Hx, IH. reflexivity.
Qed.

Lemma decimal_digitValue c :
  isDecimalDigit c = true -> digitValue c = Some (Z.of_N c - 48).
Proof. unfold digitValue, isDecimalDigit. now intros ->. Qed.

Lemma mathematicalInteger_decimalValue digits :
  Forall (fun c => isDecimalDigit c = true) digits ->
  mathematicalInteger 10 digits = decimalValue digits.
Proof.
  unfold mathematicalInteger, decimalValue. intros H. generalize 0.
  induction H as [|c l Hc _ IH]; intros acc; cbn [fold_left]; [reflexivity|].
  rewrite (decimal_digitValue c Hc), IH. f_equal. lia.
Qed.

(** A decimal digit is neither white space, nor a sign, nor the [x]
    of a hexadecimal prefix. *)
Lemma decimal_digit_plain c : isDecimalDigit c = true ->
  isWhiteSpace c = false /\ (c =? 43)%N = false /\ (c =? 45)%N = false /\
  (120 =? c)%N = false /\ (88 =? c)%N = false /\
  (43 =? c)%N = false /\ (45 =? c)%N = false.
Proof.
  unfold isDecimalDigit. intros H. apply andb_true_iff in H as [H1 H2].
  apply N.leb_le in H1, H2.
  assert (E : (c = 48 \/ c = 49 \/ c = 50 \/ c = 51 \/ c = 52 \/
               c = 53 \/ c = 54 \/ c = 55 \/ c = 56 \/ c = 57)%N) by lia.
  destruct E as [E|[E|[E|[E|[E|[E|[E|[E|[E|E]]]]]]]]]; subst c;
    repeat split; reflexivity.
Qed.

Lemma decimal_no_prefix l :
  Forall (fun c => isDecimalDigit c = true) l ->
  startsWith l (js "0x") || startsWith l (js "0X") = false.
Proof.
  change (js "0x") with [48%N; 120%N]. change (js "0X") with [48%N; 88%N].
  intros H. destruct H as [|c1 l H1 H]; [reflexivity|].
  destruct H as [|c2 l H2 H]; cbn [startsWith].
  - now rewrite !andb_false_r.
  - destruct (decimal_digit_plain c2 H2) as (_ & _ & _ & -> & -> & _).
    now rewrite !andb_false_r.
Qed.

Lemma startsWith_single s c :
  startsWith s [c] =
  match s with
  | x :: _ => (x =? c)%N
  | [] => false
  end.
Proof.
  destruct s; cbn [startsWith]; [reflexivity|].
  rewrite andb_true_r. apply N.eqb_sym.
Qed.

(** Without a hexadecimal prefix [parseInt] reads the leading run of
    decimal digits that follows white space and sign. *)
Lemma parseIntString_decimal_run rawText :
  hasHexPrefix rawText = false ->
  parseIntString rawText =
  match takeWhile isDecimalDigit (unsignedPart rawText) with
  | [] => NaN
  | digits =>
      if decimalValue digits =? 0 then
        if isNegative rawText then NegZero else Int 0
      else F ((if isNegative rawText then -1 else 1) * decimalValue digits)
  end.
Proof.
  unfold hasHexPrefix, parseIntString. cbv zeta.
  assert (Hu : match trimStart rawText with
               | [] => trimStart rawText
               | c :: rest =>
                   if (c =? 43)%N || (c =? 45)%N then rest else trimStart rawText
               end = unsignedPart rawText).
  { unfold unsignedPart. cbv zeta.
    change (js "+") with [43%N]. change (js "-") with [45%N].
    rewrite !startsWith_single.
    destruct (trimStart rawText) as [|c rest]; [reflexivity|].
    destruct (_ || _); reflexivity. }
  assert (Hs : match trimStart rawText with
               | [] => 1
               | c :: _ => if (c =? 45)%N then -1 else 1
               end = if isNegative rawText then -1 else 1).
  { unfold isNegative. change (js "-") with [45%N].
    rewrite startsWith_single.
    destruct (trimStart rawText) as [|c rest]; reflexivity. }
  rewrite Hu, Hs. intros ->.
  rewrite (takeWhile_ext _ _ _ isRadixDigit_10).
  pose proof (takeWhile_Forall isDecimalDigit (unsignedPart rawText)) as Hd.
  destruct (takeWhile isDecimalDigit (unsignedPart rawText)) as [|c digits];
    [reflexivity|].
  rewrite (mathematicalInteger_decimalValue _ Hd).
  destruct (decimalValue (c :: digits) =? 0); [|reflexivity].
  destruct (isNegative rawText); reflexivity.
Qed.

Lemma decimal_shape n :
  isNegative (decimal n) = (n <? 0) /\
  unsignedPart (decimal n) = digitsOf (Z.abs n) /\
  hasHexPrefix (decimal n) = false.
Proof.
  assert (Hshape : forall m, 0 <= m ->
            exists c rest, digitsOf m = c :: rest /\ isDecimalDigit c = true).
  { intros m Hm. pose proof (digitsOf_decimal m Hm) as Hd.
    pose proof (digitsOf_nonempty m Hm) as Hne.
    destruct (digitsOf m) as [|c rest]; [congruence|].
    exists c, rest. split; [reflexivity|]. now inversion Hd. }
  unfold hasHexPrefix, decimal. destruct (Z.ltb_spec n 0) as [Hn|Hn].
  - assert (Hu : unsignedPart (45%N :: digitsOf (- n)) = digitsOf (Z.abs n)).
    { replace (Z.abs n) with (- n) by lia. reflexivity. }
    rewrite Hu. repeat split.
    apply decimal_no_prefix, digitsOf_decimal. lia.
  - destruct (Hshape n Hn) as (c & rest & E & Hc).
    destruct (decimal_digit_plain c Hc) as (Hw & _ & _ & _ & _ & Hp & Hm).
    assert (Ht : trimStart (digitsOf n) = digitsOf n).
    { rewrite E. unfold trimStart. cbn [dropWhile]. now rewrite Hw. }
    assert (Hu : unsignedPart (digitsOf n) = digitsOf (Z.abs n)).
    { unfold unsignedPart. cbv zeta.
      change (js "+") with [43%N]. change (js "-") with [45%N].
      rewrite !startsWith_single, Ht, E.
      destruct (decimal_digit_plain c Hc) as (_ & -> & -> & _).
      cbn [orb]. rewrite <- E. f_equal. lia. }
    rewrite Hu. repeat split.
    + unfold isNegative. change (js "-") with [45%N].
      rewrite startsWith_single, Ht, E.
      now destruct (decimal_digit_plain c Hc) as (_ & _ & -> & _).
    + apply decimal_no_prefix, digitsOf_decimal. lia.
Qed.

(** [parseInt] reads the decimal string of an integer as that integer,
    rounded to a Number. *)
Lemma parseIntString_decimal n :
  parseIntString (decimal n) = if n =? 0 then Int 0 else F n.
Proof.
  destruct (decimal_shape n) as (Hneg & Hu & Hx).
  rewrite (parseIntString_decimal_run _ Hx), Hneg, Hu.
  assert (Ha : 0 <= Z.abs n) by lia.
  pose proof (digitsOf_decimal _ Ha) as Hd.
  pose proof (digitsOf_nonempty _ Ha) as Hne.
  rewrite (takeWhile_all _ _ Hd).
  assert (Hv : decimalValue (digitsOf (Z.abs n)) = Z.abs n).
  { rewrite <- (mathematicalInteger_decimalValue _ Hd).
    apply mathematicalInteger_digitsOf, Ha. }
  destruct (digitsOf (Z.abs n)) as [|c rest]; [congruence|].
  cbv zeta. rewrite Hv.
  destruct (Z.eqb_spec (Z.abs n) 0), (Z.eqb_spec n 0); try lia.
  - destruct (Z.ltb_spec n 0); [lia | reflexivity].
  - f_equal. destruct (Z.ltb_spec n 0); lia.
Qed.

End ParseDecimal.

(** ** The range test *)

Section RangeTest.

(** The test of the handler holds exactly of the integers 0..5 (and
    of -0): NaN and the infinities fail it. *)
Lemma inRange_inBounds x : inRange x = true <-> inBounds x.
Proof.
  unfold inBounds.
  destruct x as [ | | | |z]; cbn; try (intuition (discriminate || lia)).
  unfold inRange, Num.ge, Num.le, lessThan; cbn [R].
  destruct (Z.ltb_spec z 0), (Z.ltb_spec 5 z); cbn;
    intuition (discriminate || lia).
Qed.

Lemma inRange_Int z : 0 <= z <= 5 -> inRange (Int z) = true.
Proof. intros H. apply inRange_inBounds. split; [reflexivity | exact H]. Qed.

Lemma inRange_NaN : inRange NaN = false.
Proof. reflexivity. Qed.

Lemma startsWith_app s t : startsWith (s ++ t) s = true.
Proof.
  induction s as [|c s IH]; cbn [startsWith app]; [reflexivity|].
  now rewrite N.eqb_refl, IH.
Qed.

Lemma includes_app s t : includes (s ++ t) s = true.
Proof.
  pose proof (startsWith_app s t) as H.
  destruct (s ++ t); cbn [includes]; now rewrite H.
Qed.

End RangeTest.

(** ** The claims *)

(** C1: for every integer n with 0 <= n <= 5 and from every state, the
    call on the decimal string of n commits NumericValue = n, leaves no
    ValidationMessage and yields Accepted(n). *)
Theorem in_range_accepted (n : Z) (st : State) :
  0 <= n <= 5 ->
  run (decimal n) st =
  inr (Accepted (Int n), {| number := Int n; isInvalidNumber := None |}).
Proof.
  intros H.
  assert (E : parseIntString (decimal n) = Int n).
  { rewrite parseIntString_decimal.
    destruct (Z.eqb_spec n 0) as [->|_]; [reflexivity|].
    apply F_safe. change (2 ^ 53) with 9007199254740992. lia. }
  rewrite run_accept; rewrite E; [reflexivity|].
  apply inRange_Int, H.
Qed.

Lemma in_range_accepted_witness :
  0 <= 4 <= 5 /\
  run (js "4") {| number := Int 1; isInvalidNumber := Some (js "7 is not a valid number!") |} =
  inr (Accepted (Int 4), {| number := Int 4; isInvalidNumber := None |}).
Proof.
  split; [lia|].
  apply (in_range_accepted 4). lia.
Defined.

(** C2, as stated, fails: the decimal string of 2^53 + 1 is rejected with
    a message that holds the rounded value 9007199254740992 and not the
    text 9007199254740993. *)
Lemma out_of_range_text_counterexample :
  let n := 2 ^ 53 + 1 in
  (n < 0 \/ 5 < n) /\
  decimal n = js "9007199254740993" /\
  run (decimal n) initialState =
  inr (Rejected (js "9007199254740992 is not a valid number!"),
       {| number := Int 0;
          isInvalidNumber := Some (js "9007199254740992 is not a valid number!") |}) /\
  includes (js "9007199254740992 is not a valid number!") (decimal n) = false.
Proof.
  cbv zeta. split; [right; reflexivity|].
  split; [vm_compute; reflexivity|].
  split; vm_compute; reflexivity.
Qed.

(** C2, amended: for every integer n with n < 0 or n > 5 and from every
    state, the call on the decimal string of n yields Rejected, leaves
    NumericValue unchanged and sets ValidationMessage to the non-empty
    text of the Number nearest to n followed by " is not a valid
    number!"; when |n| < 2^53 that text contains the decimal string of
    n. *)
Theorem out_of_range_rejected (n : Z) (st : State) :
  n < 0 \/ 5 < n ->
  exists message,
    run (decimal n) st =
    inr (Rejected message,
         {| number := number st; isInvalidNumber := Some message |}) /\
    message = Num.toString (F n) ++ js " is not a valid number!" /\
    message <> [] /\
    (- 2 ^ 53 < n < 2 ^ 53 -> includes message (decimal n) = true).
Proof.
  intros H.
  assert (E : parseIntString (decimal n) = F n).
  { rewrite parseIntString_decimal.
    destruct (Z.eqb_spec n 0); [lia | reflexivity]. }
  assert (Hr : inRange (F n) = false).
  { destruct H; [apply F_below | apply F_above]; assumption. }
  exists (rejection (F n)). repeat split.
  - rewrite run_reject; rewrite E; [reflexivity | exact Hr].
  - unfold rejection. intros Hnil. apply app_eq_nil in Hnil as [_ Hnil].
    discriminate Hnil.
  - intros Hs. unfold rejection.
    rewrite (F_safe n Hs), (toString_safe n Hs). apply includes_app.
Qed.

Lemma out_of_range_rejected_witness :
  (-1 < 0 \/ 5 < -1) /\
  exists message,
    run (js "-1") initialState =
    inr (Rejected message,
         {| number := Int 0; isInvalidNumber := Some message |}) /\
    message = Num.toString (F (-1)) ++ js " is not a valid number!" /\
    message <> [] /\
    (- 2 ^ 53 < -1 < 2 ^ 53 -> includes message (js "-1") = true).
Proof.
  split; [left; lia|].
  apply (out_of_range_rejected (-1) initialState). left. lia.
Defined.

(** C3: NumericValue is 0 at initialization and every call keeps it an
    integer of the closed range 0..5, changing it only to a parsed value
    that passed the range test; so it is in the range after every
    sequence of calls from the initial state. *)
Theorem number_in_bounds :
  number initialState = Int 0 /\
  inBounds (number initialState) /\
  (forall (rawText : JSString) (st : State),
      inBounds (number st) ->
      exists outcome st',
        run rawText st = inr (outcome, st') /\
        inBounds (number st') /\
        (number st' <> number st ->
         inRange (parseIntString rawText) = true /\
         number st' = parseIntString rawText)) /\
  (forall inputs : list JSString,
      exists st, runAll inputs initialState = inr st /\ inBounds (number st)).
Proof.
  assert (Hinit : inBounds (number initialState))
    by (split; [reflexivity | cbn; lia]).
  assert (Hstep : forall rawText st,
             inBounds (number st) ->
             exists outcome st',
               run rawText st = inr (outcome, st') /\
               inBounds (number st') /\
               (number st' <> number st ->
                inRange (parseIntString rawText) = true /\
                number st' = parseIntString rawText)).
  { intros rawText st Hst. run_cases rawText;
      eexists; eexists; (split; [reflexivity|]); cbn [number].
    - split; [apply inRange_inBounds; assumption | auto].
    - split; [exact Hst | congruence]. }
  split; [reflexivity|]. split; [exact Hinit|]. split; [exact Hstep|].
  intros inputs. generalize initialState Hinit.
  induction inputs as [|rawText rest IH]; intros st Hst.
  - exists st. split; [reflexivity | exact Hst].
  - destruct (Hstep rawText st Hst) as (outcome & st' & Hrun & Hst' & _).
    destruct (IH st' Hst') as (st'' & Hall & Hb).
    exists st''. split; [|exact Hb].
    cbn [runAll]. rewrite Hrun. exact Hall.
Qed.

Lemma number_in_bounds_witness :
  inBounds (Int 2) /\
  exists outcome st',
    run (js "77") {| number := Int 2; isInvalidNumber := None |} =
    inr (outcome, st') /\
    inBounds (number st').
Proof.
  assert (H : inBounds (Int 2)) by (split; [reflexivity | cbn; lia]).
  split; [exact H|].
  destruct (proj1 (proj2 (proj2 number_in_bounds)) (js "77")
              {| number := Int 2; isInvalidNumber := None |} H)
    as (outcome & st' & Hrun & Hb & _).
  exists outcome, st'. split; [exact Hrun | exact Hb].
Defined.

(** C4: a single call never changes both cells afresh, that is, it never
    both changes NumericValue and leaves a ValidationMessage.  An
    accepted input commits the parsed value and clears the message; a
    rejected input leaves NumericValue unchanged and sets the message;
    afterwards the message is present exactly when the parsed value
    failed the range test, which is when the attempt was rejected. *)
Theorem one_cell_per_outcome (rawText : JSString) (st : State) :
  exists outcome st',
    run rawText st = inr (outcome, st') /\
    (inRange (parseIntString rawText) = true ->
     outcome = Accepted (parseIntString rawText) /\
     number st' = parseIntString rawText /\
     isInvalidNumber st' = None) /\
    (inRange (parseIntString rawText) = false ->
     number st' = number st /\
     exists message,
       outcome = Rejected message /\ isInvalidNumber st' = Some message) /\
    (isInvalidNumber st' <> None <-> inRange (parseIntString rawText) = false) /\
    ~ (number st' <> number st /\ isInvalidNumber st' <> None).
Proof.
  run_cases rawText;
    eexists; eexists; (split; [reflexivity|]); cbn [number isInvalidNumber].
  - repeat split; try discriminate; try congruence; tauto.
  - repeat split; try discriminate; try congruence.
    + eexists; split; reflexivity.
    + tauto.
Qed.

Lemma one_cell_per_outcome_witness :
  inRange (parseIntString (js "6")) = false /\
  exists outcome st',
    run (js "6") initialState = inr (outcome, st') /\
    number st' = Int 0 /\
    isInvalidNumber st' <> None.
Proof.
  split; [reflexivity|].
  destruct (one_cell_per_outcome (js "6") initialState)
    as (outcome & st' & Hrun & _ & Hrej & Hiff & _).
  exists outcome, st'. split; [exact Hrun|].
  split; [apply Hrej; reflexivity | apply Hiff; reflexivity].
Defined.

(** C5, as stated, fails on a hexadecimal prefix: the leading integer
    of "0x10" is 0 and "x10" is not numeric, yet [parseInt] reads 16 and
    the call is rejected; "0x" alone parses to NaN. *)
Lemma leading_integer_counterexample :
  let st := {| number := Int 3; isInvalidNumber := None |} in
  leadingInteger (js "0x10") = Some 0 /\
  run (js "0x10") st =
  inr (Rejected (js "16 is not a valid number!"),
       {| number := Int 3;
          isInvalidNumber := Some (js "16 is not a valid number!") |}) /\
  leadingInteger (js "0x") = Some 0 /\
  parseIntString (js "0x") = NaN.
Proof. cbv zeta. repeat split; vm_compute; reflexivity. Qed.

Lemma decimalValue_nonneg digits :
  Forall (fun c => isDecimalDigit c = true) digits -> 0 <= decimalValue digits.
Proof.
  unfold decimalValue. intros H.
  assert (G : forall acc, 0 <= acc ->
            0 <= fold_left (fun acc c => 10 * acc + (Z.of_N c - 48)) digits acc).
  { induction H as [|c l Hc _ IH]; intros acc Hacc; cbn [fold_left]; [exact Hacc|].
    apply IH. unfold isDecimalDigit in Hc.
    apply andb_true_iff in Hc as [Hc _]. apply N.leb_le in Hc. lia. }
  apply G. lia.
Qed.

Lemma no_digits_no_prefix rawText :
  takeWhile isDecimalDigit (unsignedPart rawText) = [] ->
  hasHexPrefix rawText = false.
Proof.
  unfold hasHexPrefix.
  change (js "0x") with [48%N; 120%N]. change (js "0X") with [48%N; 88%N].
  destruct (unsignedPart rawText) as [|c rest]; [reflexivity|].
  cbn [takeWhile startsWith].
  destruct (N.eqb_spec 48 c) as [<-|_]; [discriminate | reflexivity].
Qed.

(** C5, amended: the call reads the leading decimal integer of a text
    that has no hexadecimal prefix.  For every string that, after white
    space and an optional sign, does not start with 0x or 0X and whose
    leading integer is n with 0 <= n <= 5, what follows the digits is
    ignored and the call is Accepted with NumericValue = n: the Number
    committed is n, except that it is -0 when n = 0 and the text has a
    minus sign; a string with no leading integer parses to NaN. *)
Theorem leading_integer_accepted (rawText : JSString) (st : State) :
  (forall n,
      hasHexPrefix rawText = false ->
      leadingInteger rawText = Some n ->
      0 <= n <= 5 ->
      exists v,
        run rawText st =
        inr (Accepted v, {| number := v; isInvalidNumber := None |}) /\
        v = (if isNegative rawText && (n =? 0) then NegZero else Int n) /\
        Num.isFinite v = true /\ Num.R v = n) /\
  (leadingInteger rawText = None -> parseIntString rawText = NaN).
Proof.
  split.
  - intros n Hx Hl Hn. pose proof (parseIntString_decimal_run rawText Hx) as E.
    unfold leadingInteger in Hl.
    pose proof (takeWhile_Forall isDecimalDigit (unsignedPart rawText)) as Hd.
    destruct (takeWhile isDecimalDigit (unsignedPart rawText)) as [|c digits];
      [discriminate|].
    pose proof (decimalValue_nonneg _ Hd) as Hv.
    injection Hl as Hl. cbv zeta in E.
    exists (parseIntString rawText).
    assert (G : parseIntString rawText =
                (if isNegative rawText && (n =? 0) then NegZero else Int n)).
    { rewrite E. destruct (Z.eqb_spec (decimalValue (c :: digits)) 0) as [Hz|Hz].
      - rewrite Hz in Hl. destruct (isNegative rawText);
          (replace n with 0 by lia); reflexivity.
      - destruct (isNegative rawText); [lia|].
        rewrite F_safe by (change (2 ^ 53) with 9007199254740992; lia).
        cbn [andb]. f_equal. lia. }
    assert (G' : Num.isFinite (parseIntString rawText) = true /\
                 Num.R (parseIntString rawText) = n).
    { rewrite G. destruct (isNegative rawText && (n =? 0)) eqn:B; cbn.
      - apply andb_true_iff in B as [_ B]. apply Z.eqb_eq in B.
        split; [reflexivity | lia].
      - split; reflexivity. }
    split; [|split; [exact G | exact G']].
    apply run_accept, inRange_inBounds. split; [apply G'|].
    destruct G' as [_ ->]. exact Hn.
  - intros Hl. unfold leadingInteger in Hl.
    destruct (takeWhile isDecimalDigit (unsignedPart rawText)) as [|c digits] eqn:Et;
      [|discriminate].
    rewrite (parseIntString_decimal_run rawText (no_digits_no_prefix _ Et)), Et.
    reflexivity.
Qed.

Lemma leading_integer_accepted_witness :
  hasHexPrefix (js "-0px") = false /\
  leadingInteger (js "-0px") = Some 0 /\
  0 <= 0 <= 5 /\
  exists v,
    run (js "-0px") initialState =
    inr (Accepted v, {| number := v; isInvalidNumber := None |}) /\
    v = NegZero /\
    Num.isFinite v = true /\ Num.R v = 0.
Proof.
  split; [reflexivity|]. split; [reflexivity|]. split; [lia|].
  apply (proj1 (leading_integer_accepted (js "-0px") initialState) 0);
    [reflexivity | reflexivity | lia].
Defined.

(** C6: an input that does not parse to a number takes the rejecting
    branch like an out-of-range one: the outcome is Rejected, NumericValue
    is unchanged and ValidationMessage is set, to the same template
    applied to the parsed value. *)
Theorem unparseable_rejected (rawText : JSString) (st : State) :
  parseIntString rawText = NaN ->
  inRange (parseIntString rawText) = false /\
  run rawText st =
  inr (Rejected (rejection (parseIntString rawText)),
       {| number := number st;
          isInvalidNumber := Some (rejection (parseIntString rawText)) |}).
Proof.
  intros H.
  assert (E : inRange (parseIntString rawText) = false)
    by (rewrite H; apply inRange_NaN).
  split; [exact E | apply run_reject, E].
Qed.

Lemma unparseable_rejected_witness :
  parseIntString (js "abc") = NaN /\
  run (js "abc") {| number := Int 4; isInvalidNumber := None |} =
  inr (Rejected (js "NaN is not a valid number!"),
       {| number := Int 4;
          isInvalidNumber := Some (js "NaN is not a valid number!") |}).
Proof.
  split; [reflexivity|].
  apply (unparseable_rejected (js "abc")
           {| number := Int 4; isInvalidNumber := None |}).
  reflexivity.
Defined.

(** C7: for every input string and every state the call completes
    normally; a rejection is an outcome like the other, visible in the
    ValidationMessage cell only, and no call throws. *)
Theorem never_throws (rawText : JSString) (st : State) :
  exists outcome st',
    run rawText st = inr (outcome, st') /\
    match outcome with
    | Accepted n => number st' = n /\ isInvalidNumber st' = None
    | Rejected message =>
        number st' = number st /\ isInvalidNumber st' = Some message
    end.
Proof.
  run_cases rawText;
    eexists; eexists; (split; [reflexivity|]); split; reflexivity.
Qed.

(** C8: for every integer n with 0 <= n <= 5 and every state, two calls
    in a row on the decimal string of n leave NumericValue = n and no
    ValidationMessage after each of them, and the second call does not
    change the state. *)
Theorem in_range_idempotent (n : Z) (st : State) :
  0 <= n <= 5 ->
  exists st1 st2,
    run (decimal n) st = inr (Accepted (Int n), st1) /\
    run (decimal n) st1 = inr (Accepted (Int n), st2) /\
    number st1 = Int n /\ isInvalidNumber st1 = None /\
    number st2 = Int n /\ isInvalidNumber st2 = None /\
    st2 = st1.
Proof.
  intros H.
  assert (E : parseIntString (decimal n) = Int n).
  { rewrite parseIntString_decimal.
    destruct (Z.eqb_spec n 0) as [->|_]; [reflexivity|].
    apply F_safe. change (2 ^ 53) with 9007199254740992. lia. }
  assert (Hr : inRange (parseIntString (decimal n)) = true)
    by (rewrite E; apply inRange_Int, H).
  exists {| number := Int n; isInvalidNumber := None |},
         {| number := Int n; isInvalidNumber := None |}.
  rewrite !(run_accept _ _ Hr), E. repeat split.
Qed.

Lemma in_range_idempotent_witness :
  0 <= 5 <= 5 /\
  exists st1 st2,
    run (js "5") initialState = inr (Accepted (Int 5), st1) /\
    run (js "5") st1 = inr (Accepted (Int 5), st2) /\
    number st1 = Int 5 /\ isInvalidNumber st1 = None /\
    number st2 = Int 5 /\ isInvalidNumber st2 = None /\
    st2 = st1.
Proof.
  split; [lia|].
  apply (in_range_idempotent 5 initialState). lia.
Defined.

(** C9: from the initial state (0, no message) the calls on "3", "9"
    and "2" give in turn the states (3, no message), (3, "9 is not a
    valid number!") and (2, no message). *)
Theorem scenario_3_9_2 :
  let s1 := {| number := Int 3; isInvalidNumber := None |} in
  let s2 := {| number := Int 3;
               isInvalidNumber := Some (js "9 is not a valid number!") |} in
  let s3 := {| number := Int 2; isInvalidNumber := None |} in
  number initialState = Int 0 /\ isInvalidNumber initialState = None /\
  run (js "3") initialState = inr (Accepted (Int 3), s1) /\
  run (js "9") s1 = inr (Rejected (js "9 is not a valid number!"), s2) /\
  run (js "2") s2 = inr (Accepted (Int 2), s3).
Proof. cbv zeta. repeat split; vm_compute; reflexivity. Qed.

(** C10: on every rejection the message is the text of the parsed value
    (not the raw text) followed by " is not a valid number!": it is "NaN
    is not a valid number!" whenever the input does not parse, and "7 is
    not a valid number!" for the input "7.9". *)
Theorem rejection_message (rawText : JSString) (st : State) :
  (forall message st',
      run rawText st = inr (Rejected message, st') ->
      message = Num.toString (parseIntString rawText) ++ js " is not a valid number!" /\
      isInvalidNumber st' = Some message) /\
  (parseIntString rawText = NaN ->
   run rawText st =
   inr (Rejected (js "NaN is not a valid number!"),
        {| number := number st;
           isInvalidNumber := Some (js "NaN is not a valid number!") |})) /\
  run (js "7.9") st =
  inr (Rejected (js "7 is not a valid number!"),
       {| number := number st;
          isInvalidNumber := Some (js "7 is not a valid number!") |}).
Proof.
  split; [|split].
  - intros message st' H. rewrite run_unfold in H. cbv zeta in H.
    destruct (inRange (parseIntString rawText)); [discriminate|].
    injection H as <- <-. split; reflexivity.
  - intros H. rewrite run_reject; rewrite H; reflexivity.
  - rewrite run_reject; reflexivity.
Qed.

Lemma rejection_message_witness :
  run (js "12px") initialState =
  inr (Rejected (js "12 is not a valid number!"),
       {| number := Int 0;
          isInvalidNumber := Some (js "12 is not a valid number!") |}) /\
  js "12 is not a valid number!" =
  Num.toString (parseIntString (js "12px")) ++ js " is not a valid number!".
Proof.
  split; [reflexivity|].
  apply (proj1 (rejection_message (js "12px") initialState)
           (js "12 is not a valid number!")
           {| number := Int 0;
              isInvalidNumber := Some (js "12 is not a valid number!") |}).
  reflexivity.
Defined.

(** * More of the lesson's code *)

(** ** Sessions on the number field *)

Section Sessions.

Lemma runAll_cons rawText rest st :
  runAll (rawText :: rest) st =
  runAll rest
    (let newNumber := parseIntString rawText in
     if inRange newNumber
     then {| number := newNumber; isInvalidNumber := None |}
     else {| number := number st;
             isInvalidNumber := Some (rejection newNumber) |}).
Proof.
  cbn [runAll]. rewrite run_unfold. cbv zeta.
  destruct (inRange (parseIntString rawText)); reflexivity.
Qed.

Lemma runAll_total inputs : forall st, exists st', runAll inputs st = inr st'.
Proof.
  induction inputs as [|rawText rest IH]; intros st.
  - exists st. reflexivity.
  - rewrite runAll_cons. apply IH.
Qed.

Lemma runAll_app inputs : forall more st mid,
  runAll inputs st = inr mid ->
  runAll (inputs ++ more) st = runAll more mid.
Proof.
  induction inputs as [|rawText rest IH]; intros more st mid H.
  - cbn in H. injection H as <-. reflexivity.
  - rewrite <- app_comm_cons, runAll_cons. rewrite runAll_cons in H.
    apply IH, H.
Qed.

End Sessions.

(** X1: the rejected inputs of a session can be left out: NumericValue
    after a session is NumericValue after its accepted inputs alone. *)
Theorem rejected_inputs_dropped (inputs : list JSString) (st : State) :
  exists st1 st2,
    runAll inputs st = inr st1 /\
    runAll (filter (fun rawText => inRange (parseIntString rawText)) inputs) st
    = inr st2 /\
    number st1 = number st2.
Proof.
  assert (G : forall sa sb, number sa = number sb ->
            exists st1 st2,
              runAll inputs sa = inr st1 /\
              runAll (filter (fun rawText => inRange (parseIntString rawText))
                        inputs) sb = inr st2 /\
              number st1 = number st2).
  { induction inputs as [|rawText rest IH]; intros sa sb Hab.
    - exists sa, sb. split; [reflexivity|]. split; [reflexivity | exact Hab].
    - rewrite runAll_cons. cbn [filter]. cbv zeta.
      destruct (inRange (parseIntString rawText)) eqn:E.
      + rewrite runAll_cons. cbv zeta. rewrite E. apply IH. reflexivity.
      + apply IH. exact Hab. }
  apply G. reflexivity.
Qed.

(** X2: the state after a session that ends with the input [rawText]:
    the message cell depends on that last input alone, and NumericValue
    is its parsed value when accepted, the value before it otherwise. *)
Theorem last_input_decides (inputs : list JSString) (rawText : JSString)
    (st : State) :
  exists mid st',
    runAll inputs st = inr mid /\
    runAll (inputs ++ [rawText]) st = inr st' /\
    isInvalidNumber st' =
      (if inRange (parseIntString rawText) then None
       else Some (Num.toString (parseIntString rawText) ++
                  js " is not a valid number!")) /\
    number st' =
      (if inRange (parseIntString rawText) then parseIntString rawText
       else number mid).
Proof.
  destruct (runAll_total inputs st) as [mid Hmid].
  exists mid. rewrite (runAll_app _ _ _ _ Hmid), runAll_cons. cbv zeta.
  eexists. split; [exact Hmid|]. split; [reflexivity|].
  destruct (inRange (parseIntString rawText)); split; reflexivity.
Qed.

(** X3: a call is accepted exactly when [parseInt] gives an integer of
    0..5 (-0 included); NaN and the infinities are rejected. *)
Theorem accepted_iff_in_bounds (rawText : JSString) (st : State) :
  (exists v st', run rawText st = inr (Accepted v, st')) <->
  inBounds (parseIntString rawText).
Proof.
  rewrite <- inRange_inBounds. rewrite run_unfold. cbv zeta.
  destruct (inRange (parseIntString rawText)); split.
  - reflexivity.
  - intros _. eexists; eexists; reflexivity.
  - intros (v & st' & H). discriminate H.
  - discriminate.
Qed.

Section Signs.

Lemma digitValue_nonneg c d : digitValue c = Some d -> 0 <= d.
Proof.
  unfold digitValue.
  destruct (N.leb_spec 48 c), (N.leb_spec c 57); cbn [andb];
    try (intros [= <-]; lia);
    destruct (N.leb_spec 97 c), (N.leb_spec c 122); cbn [andb];
    try (intros [= <-]; lia);
    destruct (N.leb_spec 65 c), (N.leb_spec c 90); cbn [andb];
    try (intros [= <-]; lia); discriminate.
Qed.

Lemma mathematicalInteger_nonneg radix digits :
  0 <= radix -> 0 <= mathematicalInteger radix digits.
Proof.
  intros Hr. unfold mathematicalInteger.
  assert (G : forall acc, 0 <= acc ->
            0 <= fold_left
                   (fun acc c => match digitValue c with
                                 | Some d => acc * radix + d
                                 | None => acc
                                 end) digits acc).
  { induction digits as [|c l IH]; intros acc Hacc; cbn [fold_left];
      [exact Hacc|].
    apply IH. destruct (digitValue c) as [d|] eqn:E; [|exact Hacc].
    pose proof (digitValue_nonneg c d E). nia. }
  apply G. lia.
Qed.

(** What [parseInt] returns: NaN, a zero with the sign of the text, or
    the Number of a non-zero integer with that sign. *)
Lemma parseIntString_sign rawText :
  parseIntString rawText = NaN \/
  exists m, 0 <= m /\
    parseIntString rawText =
    if m =? 0 then (if isNegative rawText then NegZero else Int 0)
    else F ((if isNegative rawText then -1 else 1) * m).
Proof.
  unfold parseIntString. cbv zeta.
  assert (Hs : match trimStart rawText with
               | [] => 1
               | c :: _ => if (c =? 45)%N then -1 else 1
               end = if isNegative rawText then -1 else 1).
  { unfold isNegative. change (js "-") with [45%N].
    rewrite startsWith_single.
    destruct (trimStart rawText) as [|c rest]; reflexivity. }
  rewrite Hs.
  match goal with
  | |- context [takeWhile (isRadixDigit ?r) ?b] =>
      set (radix := r);
      destruct (takeWhile (isRadixDigit radix) b) as [|c digits]
  end; [left; reflexivity|]. right.
  exists (mathematicalInteger radix (c :: digits)). split.
  - apply mathematicalInteger_nonneg. unfold radix. destruct (_ || _); lia.
  - destruct (mathematicalInteger radix (c :: digits) =? 0); [|reflexivity].
    destruct (isNegative rawText); reflexivity.
Qed.

Lemma trimStart_white ws rawText :
  Forall (fun c => isWhiteSpace c = true) ws ->
  trimStart (ws ++ rawText) = trimStart rawText.
Proof.
  unfold trimStart. induction 1 as [|c ws Hc _ IH]; [reflexivity|].
  cbn [app dropWhile]. now rewrite Hc.
Qed.

End Signs.

(** X4: a text with a minus sign is never accepted with a value other
    than -0: when the first code unit after white space is [-], an
    accepted call commits -0. *)
Theorem minus_sign_accepts_only_zero (rawText : JSString) (st st' : State)
    (v : Number) :
  isNegative rawText = true ->
  run rawText st = inr (Accepted v, st') ->
  v = NegZero /\ number st' = NegZero.
Proof.
  intros Hneg Hrun. rewrite run_unfold in Hrun. cbv zeta in Hrun.
  destruct (inRange (parseIntString rawText)) eqn:E; [|discriminate].
  injection Hrun as <- <-. cbn [number].
  destruct (parseIntString_sign rawText) as [Hp|(m & Hm & Hp)];
    rewrite Hp in E |- *.
  - discriminate E.
  - rewrite Hneg in E |- *. destruct (Z.eqb_spec m 0); [split; reflexivity|].
    rewrite F_below in E by lia. discriminate E.
Qed.

Lemma minus_sign_accepts_only_zero_witness :
  isNegative (js " -0.5") = true /\
  run (js " -0.5") initialState =
  inr (Accepted NegZero, {| number := NegZero; isInvalidNumber := None |}) /\
  NegZero = NegZero /\ number {| number := NegZero; isInvalidNumber := None |} = NegZero.
Proof.
  split; [reflexivity|]. split; [reflexivity|].
  apply (minus_sign_accepts_only_zero (js " -0.5") initialState
           {| number := NegZero; isInvalidNumber := None |} NegZero);
    reflexivity.
Defined.

(** X5: white space in front of the text changes nothing: the call on
    [ws ++ rawText] is the call on [rawText]. *)
Theorem leading_white_space_ignored (ws rawText : JSString) (st : State) :
  Forall (fun c => isWhiteSpace c = true) ws ->
  run (ws ++ rawText) st = run rawText st.
Proof.
  intros H. rewrite !run_unfold.
  assert (E : parseIntString (ws ++ rawText) = parseIntString rawText).
  { unfold parseIntString. now rewrite (trimStart_white ws rawText H). }
  now rewrite E.
Qed.

Lemma leading_white_space_ignored_witness :
  Forall (fun c => isWhiteSpace c = true) [32%N; 9%N; 160%N] /\
  run ([32%N; 9%N; 160%N] ++ js "4") initialState = run (js "4") initialState.
Proof.
  assert (H : Forall (fun c => isWhiteSpace c = true) [32%N; 9%N; 160%N])
    by (repeat constructor).
  split; [exact H|].
  apply (leading_white_space_ignored [32%N; 9%N; 160%N] (js "4") initialState H).
Defined.

Lemma digits_shape digits :
  digits <> [] ->
  Forall (fun c => isDecimalDigit c = true) digits ->
  isNegative digits = false /\
  unsignedPart digits = digits /\
  hasHexPrefix digits = false.
Proof.
  intros Hne Hd. destruct digits as [|c rest]; [congruence|].
  assert (Hc : isDecimalDigit c = true) by now inversion Hd.
  destruct (decimal_digit_plain c Hc) as (Hw & Hp & Hm & _).
  assert (Ht : trimStart (c :: rest) = c :: rest).
  { unfold trimStart. cbn [dropWhile]. now rewrite Hw. }
  assert (Hu : unsignedPart (c :: rest) = c :: rest).
  { unfold unsignedPart. cbv zeta.
    change (js "+") with [43%N]. change (js "-") with [45%N].
    rewrite !startsWith_single, Ht, Hp, Hm. reflexivity. }
  split; [|split].
  - unfold isNegative. change (js "-") with [45%N].
    now rewrite startsWith_single, Ht.
  - exact Hu.
  - unfold hasHexPrefix. rewrite Hu. apply decimal_no_prefix, Hd.
Qed.

(** X6: a text made of decimal digits only, leading zeros allowed, is
    accepted exactly when its value is at most 5, and then commits that
    value; above 5 it is rejected and NumericValue stays. *)
Theorem digits_accepted_up_to_5 (digits : JSString) (st : State) :
  digits <> [] ->
  Forall (fun c => isDecimalDigit c = true) digits ->
  run digits st =
  inr (if decimalValue digits <=? 5
       then (Accepted (Int (decimalValue digits)),
             {| number := Int (decimalValue digits);
                isInvalidNumber := None |})
       else (Rejected (rejection (F (decimalValue digits))),
             {| number := number st;
                isInvalidNumber :=
                  Some (rejection (F (decimalValue digits))) |})).
Proof.
  intros Hne Hd. destruct (digits_shape digits Hne Hd) as (Hneg & Hu & Hx).
  pose proof (decimalValue_nonneg digits Hd) as Hv.
  assert (E : parseIntString digits =
              if decimalValue digits =? 0 then Int 0
              else F (decimalValue digits)).
  { rewrite (parseIntString_decimal_run _ Hx), Hu, Hneg.
    rewrite (takeWhile_all _ _ Hd).
    destruct digits as [|c rest]; [congruence|]. cbv zeta.
    destruct (decimalValue (c :: rest) =? 0); [reflexivity|].
    f_equal. lia. }
  destruct (Z.leb_spec (decimalValue digits) 5) as [Hle|Hgt].
  - assert (E' : parseIntString digits = Int (decimalValue digits)).
    { rewrite E. destruct (Z.eqb_spec (decimalValue digits) 0) as [->|_];
        [reflexivity|].
      apply F_safe. change (2 ^ 53) with 9007199254740992. lia. }
    rewrite run_accept; rewrite E'; [reflexivity|].
    apply inRange_Int. lia.
  - assert (E' : parseIntString digits = F (decimalValue digits)).
    { rewrite E. destruct (Z.eqb_spec (decimalValue digits) 0); [lia|reflexivity]. }
    rewrite run_reject; rewrite E'; [reflexivity|].
    apply F_above, Hgt.
Qed.

Lemma digits_accepted_up_to_5_witness :
  js "0004" <> [] /\
  Forall (fun c => isDecimalDigit c = true) (js "0004") /\
  run (js "0004") initialState =
  inr (Accepted (Int 4), {| number := Int 4; isInvalidNumber := None |}).
Proof.
  assert (Hne : js "0004" <> []) by discriminate.
  assert (Hd : Forall (fun c => isDecimalDigit c = true) (js "0004"))
    by (repeat constructor).
  split; [exact Hne|]. split; [exact Hd|].
  apply (digits_accepted_up_to_5 (js "0004") initialState Hne Hd).
Defined.

(** ** The form that only blocks *)

Lemma number_only_unfold rawText n :
  runStateT (NumberOnlyForm.handleNumberChange (changeEvent rawText)) n =
  inr (tt, if inRange (parseIntString rawText) then parseIntString rawText
           else n).
Proof.
  unfold NumberOnlyForm.handleNumberChange; simpl.
  destruct (inRange (parseIntString rawText)); reflexivity.
Qed.

Lemma number_only_cons rawText rest n :
  NumberOnlyForm.session (rawText :: rest) n =
  NumberOnlyForm.session rest
    (if inRange (parseIntString rawText) then parseIntString rawText else n).
Proof. cbn [NumberOnlyForm.session]. rewrite number_only_unfold. reflexivity. Qed.

(** X7: the form without a message and the form with one keep the same
    NumericValue: over every session, the single cell of the first
    equals the number cell of the second. *)
Theorem number_only_agrees (inputs : list JSString) (st : State) :
  exists n' st',
    NumberOnlyForm.session inputs (number st) = inr n' /\
    runAll inputs st = inr st' /\
    n' = number st'.
Proof.
  revert st. induction inputs as [|rawText rest IH]; intros st.
  - exists (number st), st. repeat split.
  - rewrite number_only_cons, runAll_cons. cbv zeta.
    destruct (inRange (parseIntString rawText)).
    + apply (IH {| number := parseIntString rawText; isInvalidNumber := None |}).
    + apply (IH {| number := number st;
                   isInvalidNumber := Some (rejection (parseIntString rawText)) |}).
Qed.

(** X8: in the form without a message, the number shown after a session
    is an integer of 0..5, and it is the initial 0 or the parsed value
    of an accepted input of the session: a rejected input leaves no
    trace. *)
Theorem number_only_provenance (inputs : list JSString) :
  exists n,
    NumberOnlyForm.session inputs NumberOnlyForm.initialNumber = inr n /\
    inBounds n /\
    (n = Int 0 \/
     exists rawText,
       In rawText inputs /\
       inRange (parseIntString rawText) = true /\
       n = parseIntString rawText).
Proof.
  assert (G : forall n0, inBounds n0 ->
            exists n,
              NumberOnlyForm.session inputs n0 = inr n /\
              inBounds n /\
              (n = n0 \/
               exists rawText,
                 In rawText inputs /\
                 inRange (parseIntString rawText) = true /\
                 n = parseIntString rawText)).
  { induction inputs as [|rawText rest IH]; intros n0 H0.
    - exists n0. split; [reflexivity|]. split; [exact H0 | left; reflexivity].
    - rewrite number_only_cons.
      destruct (inRange (parseIntString rawText)) eqn:E.
      + destruct (IH (parseIntString rawText)) as (n & Hs & Hb & Hor);
          [apply inRange_inBounds, E|].
        exists n. split; [exact Hs|]. split; [exact Hb|]. right.
        destruct Hor as [->|(r & Hin & Hr & ->)].
        * exists rawText. repeat split; [left; reflexivity | exact E].
        * exists r. repeat split; [right; exact Hin | exact Hr].
      + destruct (IH n0 H0) as (n & Hs & Hb & Hor).
        exists n. split; [exact Hs|]. split; [exact Hb|].
        destruct Hor as [->|(r & Hin & Hr & ->)]; [left; reflexivity|].
        right. exists r. repeat split; [right; exact Hin | exact Hr]. }
  apply G. split; [reflexivity | cbn; lia].
Qed.

(** ** The whole page *)

Section Page.

Lemma step_firstName rawText st :
  App.step 0 rawText st =
  inr {| App.firstName := rawText; App.lastName := App.lastName st;
         App.number := App.number st;
         App.isInvalidNumber := App.isInvalidNumber st |}.
Proof. destruct st as [fn ln n [[|c m]|]]; reflexivity. Qed.

Lemma step_lastName rawText st :
  App.step 1 rawText st =
  inr {| App.firstName := App.firstName st; App.lastName := rawText;
         App.number := App.number st;
         App.isInvalidNumber := App.isInvalidNumber st |}.
Proof. destruct st as [fn ln n [[|c m]|]]; reflexivity. Qed.

Lemma step_number rawText st :
  App.step 2 rawText st =
  inr (let newNumber := parseIntString rawText in
       if inRange newNumber
       then {| App.firstName := App.firstName st;
               App.lastName := App.lastName st;
               App.number := newNumber;
               App.isInvalidNumber := None |}
       else {| App.firstName := App.firstName st;
               App.lastName := App.lastName st;
               App.number := App.number st;
               App.isInvalidNumber := Some (rejection newNumber) |}).
Proof.
  destruct st as [fn ln n [[|c m]|]];
    unfold App.step, App.fire, App.handleNumberChange, rejection; simpl;
    destruct (inRange (parseIntString rawText)); reflexivity.
Qed.

Lemma step_elsewhere i rawText st :
  (3 <= i)%nat -> App.step i rawText st = inr st.
Proof.
  intros Hi. destruct i as [|[|[|i]]]; try lia.
  destruct st as [fn ln n [[|c m]|]]; destruct i; reflexivity.
Qed.

Lemma rejection_nonempty x : exists c rest, rejection x = c :: rest.
Proof.
  unfold rejection. destruct (Num.toString x) as [|c rest].
  - eexists; eexists; reflexivity.
  - exists c. eexists. reflexivity.
Qed.

End Page.

Section PageSessions.

Lemma session_cons i rawText rest st st' :
  App.step i rawText st = inr st' ->
  App.session ((i, rawText) :: rest) st = App.session rest st'.
Proof. intros H. cbn [App.session]. rewrite H. reflexivity. Qed.

Lemma step_total i rawText st : exists st', App.step i rawText st = inr st'.
Proof.
  destruct i as [|[|[|i]]].
  - rewrite step_firstName. eexists; reflexivity.
  - rewrite step_lastName. eexists; reflexivity.
  - rewrite step_number. eexists; reflexivity.
  - rewrite step_elsewhere by lia. eexists; reflexivity.
Qed.

Lemma last_cons {A} (l : list A) : forall x d, last (x :: l) d = last l x.
Proof.
  induction l as [|a l IH]; intros x d; [reflexivity|].
  change (last (x :: a :: l) d) with (last (a :: l) d).
  rewrite !IH. reflexivity.
Qed.

End PageSessions.

(** X9: the name inputs are controlled.  A change event on the first
    (second) input of the page makes that input and the first (second)
    heading of [DisplayData] show the typed text; the other input, the
    number input, the other heading and the error region stay. *)
Theorem name_inputs_controlled (rawText : JSString) (st : App.ParentState) :
  (exists st',
      App.step 0 rawText st = inr st' /\
      App.shownValues (App.Parent st') =
        [Some (App.PString rawText);
         Some (App.PString (App.lastName st));
         Some (App.PNumber (App.number st))] /\
      App.headings (App.Parent st') =
        [[App.Text rawText]; [App.Text (App.lastName st)]] /\
      App.errorRegion (App.Parent st') = App.errorRegion (App.Parent st)) /\
  (exists st',
      App.step 1 rawText st = inr st' /\
      App.shownValues (App.Parent st') =
        [Some (App.PString (App.firstName st));
         Some (App.PString rawText);
         Some (App.PNumber (App.number st))] /\
      App.headings (App.Parent st') =
        [[App.Text (App.firstName st)]; [App.Text rawText]] /\
      App.errorRegion (App.Parent st') = App.errorRegion (App.Parent st)).
Proof.
  split.
  - rewrite step_firstName. eexists. split; [reflexivity|].
    destruct st as [fn ln n [[|c m]|]]; repeat split.
  - rewrite step_lastName. eexists. split; [reflexivity|].
    destruct st as [fn ln n [[|c m]|]]; repeat split.
Qed.

(** X10: the number input is controlled and blocks.  A change event on
    it makes it show the parsed value when that value passes the range
    test and leaves it showing the old number otherwise, never the typed
    text; the error region then shows nothing, respectively exactly the
    rejection message; the name inputs and the headings stay. *)
Theorem number_input_controlled (rawText : JSString) (st : App.ParentState) :
  exists st',
    App.step 2 rawText st = inr st' /\
    App.shownValues (App.Parent st') =
      [Some (App.PString (App.firstName st));
       Some (App.PString (App.lastName st));
       Some (App.PNumber (if inRange (parseIntString rawText)
                          then parseIntString rawText
                          else App.number st))] /\
    App.headings (App.Parent st') =
      [[App.Text (App.firstName st)]; [App.Text (App.lastName st)]] /\
    App.errorRegion (App.Parent st') =
      (if inRange (parseIntString rawText) then []
       else [[App.Text (Num.toString (parseIntString rawText) ++
                        js " is not a valid number!")]]).
Proof.
  rewrite step_number. eexists. split; [reflexivity|]. cbv zeta.
  destruct (inRange (parseIntString rawText)).
  - repeat split.
  - fold (rejection (parseIntString rawText)).
    destruct (rejection_nonempty (parseIntString rawText)) as (c & rest & ->).
    repeat split.
Qed.

(** X11: on the page after every session from the initial state, the
    headings show what the name inputs show, the number input shows an
    integer of 0..5, and the error region shows the message cell whenever
    that cell is set: no message is hidden by the truth test. *)
Theorem page_invariant (events : list (nat * JSString)) :
  exists st,
    App.session events App.initialState = inr st /\
    App.shownValues (App.Parent st) =
      [Some (App.PString (App.firstName st));
       Some (App.PString (App.lastName st));
       Some (App.PNumber (App.number st))] /\
    App.headings (App.Parent st) =
      [[App.Text (App.firstName st)]; [App.Text (App.lastName st)]] /\
    inBounds (App.number st) /\
    App.errorRegion (App.Parent st) =
      match App.isInvalidNumber st with
      | None => []
      | Some message => [[App.Text message]]
      end.
Proof.
  set (Inv := fun st : App.ParentState =>
                inBounds (App.number st) /\
                (App.isInvalidNumber st = None \/
                 exists x, App.isInvalidNumber st = Some (rejection x))).
  assert (Hstep : forall i rawText st st',
             Inv st -> App.step i rawText st = inr st' -> Inv st').
  { intros i rawText st st' [Hb Hm] H.
    destruct i as [|[|[|i]]].
    - rewrite step_firstName in H. injection H as <-. split; assumption.
    - rewrite step_lastName in H. injection H as <-. split; assumption.
    - rewrite step_number in H. cbv zeta in H. injection H as <-.
      destruct (inRange (parseIntString rawText)) eqn:E; split; cbn.
      + apply inRange_inBounds, E.
      + left; reflexivity.
      + exact Hb.
      + right. eexists; reflexivity.
    - rewrite step_elsewhere in H by lia. injection H as <-. split; assumption. }
  assert (Hall : forall st, Inv st ->
            exists st', App.session events st = inr st' /\ Inv st').
  { induction events as [|[i rawText] rest IH]; intros st Hst.
    - exists st. split; [reflexivity | exact Hst].
    - destruct (step_total i rawText st) as [st1 H1].
      rewrite (session_cons _ _ _ _ _ H1).
      apply IH, (Hstep _ _ _ _ Hst H1). }
  destruct (Hall App.initialState) as (st & Hs & Hb & Hm).
  { split; [split; [reflexivity | cbn; lia] | left; reflexivity]. }
  exists st. split; [exact Hs|].
  destruct st as [fn ln n msg]. cbn [App.isInvalidNumber App.number] in *.
  destruct Hm as [->|[x ->]].
  - repeat split; apply Hb.
  - destruct (rejection_nonempty x) as (c & rest & ->).
    repeat split; apply Hb.
Qed.

(** X12: the fields of the page do not interfere.  After a session from
    any state, each name cell holds the last text typed in its input
    (its old text when there is none), and the two number cells are what
    the number field alone makes of the texts typed in the number input;
    events on an input that does not exist change nothing. *)
Theorem fields_independent (events : list (nat * JSString))
    (st0 : App.ParentState) :
  exists st,
    App.session events st0 = inr st /\
    App.firstName st =
      last (map snd (filter (fun e => Nat.eqb (fst e) 0) events))
           (App.firstName st0) /\
    App.lastName st =
      last (map snd (filter (fun e => Nat.eqb (fst e) 1) events))
           (App.lastName st0) /\
    runAll (map snd (filter (fun e => Nat.eqb (fst e) 2) events))
           (numberField st0) = inr (numberField st).
Proof.
  revert st0. induction events as [|[i rawText] rest IH]; intros st0.
  - exists st0. repeat split.
  - destruct (step_total i rawText st0) as [st1 H1].
    rewrite (session_cons _ _ _ _ _ H1).
    destruct (IH st1) as (st & Hs & Hf & Hl & Hn).
    exists st. split; [exact Hs|].
    destruct i as [|[|[|i]]]; cbn [filter fst Nat.eqb map snd].
    + rewrite step_firstName in H1. injection H1 as <-.
      rewrite last_cons. repeat split; assumption.
    + rewrite step_lastName in H1. injection H1 as <-.
      rewrite last_cons. repeat split; assumption.
    + rewrite step_number in H1. cbv zeta in H1. injection H1 as <-.
      rewrite runAll_cons. cbv zeta. unfold numberField at 1.
      cbn [number isInvalidNumber].
      destruct (inRange (parseIntString rawText));
        repeat split; assumption.
    + rewrite step_elsewhere in H1 by lia. injection H1 as <-.
      repeat split; assumption.
Qed.

(** X13: change events on two different inputs commute. *)
Theorem different_inputs_commute (i j : nat) (v w : JSString)
    (st : App.ParentState) :
  i <> j ->
  App.session [(i, v); (j, w)] st = App.session [(j, w); (i, v)] st.
Proof.
  intros Hij.
  assert (H3 : forall k u s, App.step (S (S (S k))) u s = inr s)
    by (intros; apply step_elsewhere; lia).
  destruct i as [|[|[|i]]], j as [|[|[|j]]]; try congruence;
    cbn [App.session];
    rewrite ?step_firstName, ?step_lastName, ?step_number, ?H3;
    cbn [bind Monad_either]; cbv zeta;
    rewrite ?step_firstName, ?step_lastName, ?step_number, ?H3;
    cbv zeta;
    try destruct (inRange (parseIntString v));
    try destruct (inRange (parseIntString w));
    cbn [bind Monad_either];
    rewrite ?step_firstName, ?step_lastName, ?step_number, ?H3;
    reflexivity.
Qed.

Lemma different_inputs_commute_witness :
  0%nat <> 2%nat /\
  App.session [(0%nat, js "Ann"); (2%nat, js "9")] App.initialState =
  App.session [(2%nat, js "9"); (0%nat, js "Ann")] App.initialState.
Proof.
  split; [discriminate|].
  apply (different_inputs_commute 0 2 (js "Ann") (js "9") App.initialState).
  discriminate.
Defined.

(** X14: the text of a Number reads back.  When the parsed value of a
    text is an integer below 2^53 in magnitude, the call on the text of
    that Number (the number a rejection message starts with) is the call
    on the text itself. *)
Theorem number_text_reads_back (rawText : JSString) (n : Z) (st : State) :
  parseIntString rawText = Int n ->
  - 2 ^ 53 < n < 2 ^ 53 ->
  run (Num.toString (Int n)) st = run rawText st.
Proof.
  intros Hp Hn. rewrite !run_unfold.
  assert (E : parseIntString (Num.toString (Int n)) = parseIntString rawText).
  { rewrite (toString_safe n Hn), parseIntString_decimal, Hp.
    destruct (Z.eqb_spec n 0) as [->|_]; [reflexivity | apply F_safe, Hn]. }
  now rewrite E.
Qed.

Lemma number_text_reads_back_witness :
  parseIntString (js "  +42.7kg") = Int 42 /\
  - 2 ^ 53 < 42 < 2 ^ 53 /\
  run (js "42") initialState = run (js "  +42.7kg") initialState.
Proof.
  split; [reflexivity|]. split; [split; reflexivity|].
  apply (number_text_reads_back (js "  +42.7kg") 42 initialState);
    [reflexivity | split; reflexivity].
Defined.
